(** * go-logger-client: a shallow embedding of the logging client

    The repository holds two revisions of the package [logger]:
    [src/logger.go] and [src/unnamed/part_000].  Both are embedded below,
    function by function, in the modules [LoggerGo] and [Part000].  The
    data types and the model of the Go runtime they share come first. *)

From Stdlib Require Import String Ascii List ZArith Bool Lia.
From Equations Require Import Equations.
Import ListNotations.
Set Warnings "-register-all".
Local Open Scope string_scope.
Local Open Scope Z_scope.

(** ** Data model *)

(** [type severity string] with its five constants. *)
Definition severity := string.
Definition criticalSeverity : severity := "CRITICAL".
Definition debugSeverity : severity := "DEBUG".
Definition errorSeverity : severity := "ERROR".
Definition infoSeverity : severity := "INFO".
Definition warningSeverity : severity := "WARNING".

(** The dynamic values an [interface{}] payload may hold: the ones
    [encoding/json] can represent, and channels and functions, which it
    rejects with an [UnsupportedTypeError]. *)
Inductive Value : Type :=
| VNil
| VBool (b : bool)
| VInt (n : Z)
| VString (s : string)
| VSlice (xs : list Value)
| VChan
| VFunc.

(** [type logEntry struct] *)
Record logEntry : Type := mkEntry {
  Severity : severity;
  Tags : list string;
  Message : string;
  Data : Value
}.

(** [type Options struct] *)
Record Options : Type := mkOptions {
  Host : string;
  System : string;
  Token : string;
  Local : bool;
  Timeout : Z
}.

Definition setTimeout (o : Options) (t : Z) : Options :=
  mkOptions (Host o) (System o) (Token o) (Local o) t.

(** [type logger struct] *)
Record logger : Type := mkLogger { options : Options }.

(** A Go [error] value: [None] is [nil], [Some m] an error whose
    [Error()] text is [m]. *)
Definition error := option string.
Definition errors_New (m : string) : error := Some m.

Definition isErr (e : error) : bool :=
  match e with Some _ => true | None => false end.

(** [const timeout = 10] *)
Definition timeout : Z := 10.

(** ** The Go runtime the package runs on *)

(** JSON documents, the result of [json.Marshal]. *)
Inductive JSON : Type :=
| JNull
| JBool (b : bool)
| JNumber (n : Z)
| JString (s : string)
| JArray (xs : list JSON)
| JObject (fields : list (string * JSON)).

Fixpoint encodeValue (v : Value) : option JSON :=
  match v with
  | VNil => Some JNull
  | VBool b => Some (JBool b)
  | VInt n => Some (JNumber n)
  | VString s => Some (JString s)
  | VSlice xs =>
      option_map JArray
        ((fix encodeAll (l : list Value) : option (list JSON) :=
            match l with
            | [] => Some []
            | x :: r =>
                match encodeValue x, encodeAll r with
                | Some j, Some js => Some (j :: js)
                | _, _ => None
                end
            end) xs)
  | VChan => None
  | VFunc => None
  end.

(** The JSON object of a record whose payload encodes as [d], field by
    field as the struct tags name them. *)
Definition entryJSON (e : logEntry) (d : JSON) : JSON :=
  JObject [("severity", JString (Severity e));
           ("tags", JArray (map JString (Tags e)));
           ("message", JString (Message e));
           ("data", d)].

(** [json.Marshal] on a [logEntry]: the three string-typed fields always
    encode, so the call fails exactly when the payload does. *)
Definition json_Marshal (e : logEntry) : option JSON :=
  match encodeValue (Data e) with
  | Some d => Some (entryJSON e d)
  | None => None
  end.

(** An outgoing fasthttp request, as [postLog] fills it in. *)
Record Request : Type := mkRequest {
  requestURI : string;
  method : string;
  contentType : string;
  header : list (string * string);
  body : JSON
}.

(** What the process cannot decide for itself: the text
    [time.Now().Format(format)] yields at the n-th local write, and the
    error (or [nil]) with which the n-th round trip of
    [fasthttp.Client.DoTimeout] ends, given the request and the deadline
    in nanoseconds. *)
Record Env : Type := mkEnv {
  time_Now_Format : nat -> string;
  DoTimeout : nat -> Request -> Z -> error
}.

(** The observable state of the process: the package variable [logr]
    ([None] is the nil pointer), the lines printed on standard output,
    the messages [log.Fatal] printed on standard error, and the requests
    handed to the HTTP client, all oldest first. *)
Record World : Type := mkWorld {
  logr : option logger;
  stdout : list string;
  stderr : list string;
  sent : list Request
}.

Definition initialWorld : World := mkWorld None [] [] [].

(** The world after one more line on standard output, and after one more
    request handed to the client. *)
Definition printed (line : string) (w : World) : World :=
  mkWorld (logr w) (stdout w ++ [line]) (stderr w) (sent w).

Definition posted (req : Request) (w : World) : World :=
  mkWorld (logr w) (stdout w) (stderr w) (sent w ++ [req]).

(** How a call ends: it returns a value, the process exits with a status
    ([os.Exit], [log.Fatal]), or the goroutine panics on a nil
    dereference of [logr]. *)
Inductive Outcome (A : Type) : Type :=
| Returned (a : A) (w : World)
| Exited (code : Z) (w : World)
| Panicked (w : World).
Arguments Returned {A} a w.
Arguments Exited {A} code w.
Arguments Panicked {A} w.

(** Computations over the world; exit and panic cut the rest short. *)
Definition M (A : Type) : Type := World -> Outcome A.

Definition ret {A} (a : A) : M A := fun w => Returned a w.

Definition bind {A B} (m : M A) (k : A -> M B) : M B :=
  fun w =>
    match m w with
    | Returned a w' => k a w'
    | Exited c w' => Exited c w'
    | Panicked w' => Panicked w'
    end.

Declare Scope go_scope.
Delimit Scope go_scope with go.
Notation "x <- m ;; k" := (bind m (fun x => k))
  (at level 61, m at next level, right associativity) : go_scope.
Notation "m ;; k" := (bind m (fun _ => k))
  (at level 61, right associativity) : go_scope.
Local Open Scope go_scope.

(** [os.Exit(code)] *)
Definition os_Exit {A} (code : Z) : M A := fun w => Exited code w.

(** [log.Fatal(m)] of the standard library: print [m] on standard error
    (the date prefix of the standard logger is left out), then
    [os.Exit(1)]. *)
Definition coreLog_Fatal {A} (m : string) : M A :=
  fun w => Exited 1 (mkWorld (logr w) (stdout w) (stderr w ++ [m]) (sent w)).

(** Reading through the pointer [logr]; a nil pointer panics. *)
Definition deref_logr : M logger :=
  fun w => match logr w with
           | Some l => Returned l w
           | None => Panicked w
           end.

(** Reading the pointer [logr] itself, for the test [logr != nil]. *)
Definition get_logr : M (option logger) := fun w => Returned (logr w) w.

(** [logr = &logger{o}] *)
Definition set_logr (o : Options) : M unit :=
  fun w => Returned tt (mkWorld (Some (mkLogger o)) (stdout w) (stderr w) (sent w)).

(** [fmt.Printf] of one finished line on standard output. *)
Definition fmt_Print (line : string) : M unit :=
  fun w => Returned tt (printed line w).

(** The verb [%v] on a [[]string]: the elements between brackets,
    separated by single spaces. *)
Definition fmt_v (tags : list string) : string :=
  "[" ++ String.concat " " tags ++ "]".

Definition newline : string := String "010"%char EmptyString.
Definition quote : string := String "034"%char EmptyString.

(** The line [fmt.Printf("%v %v - %v - %v\n", ts, e.Severity, e.Tags,
    e.Message)] builds; the payload is not part of it. *)
Definition formatLine (ts : string) (e : logEntry) : string :=
  ts ++ " " ++ Severity e ++ " - " ++ fmt_v (Tags e) ++ " - " ++ Message e
  ++ newline.

(** [int64] wrap-around, for [time.Duration(n) * time.Second]. *)
Definition wrap64 (z : Z) : Z := (z + 2 ^ 63) mod 2 ^ 64 - 2 ^ 63.
Definition time_Second : Z := 1000000000.
Definition duration (seconds : Z) : Z := wrap64 (wrap64 seconds * time_Second).

(** [client.DoTimeout(req, res, d)]: the request goes out and the
    environment decides how the round trip ends. *)
Definition client_DoTimeout (env : Env) (req : Request) (d : Z) : M error :=
  fun w =>
    Returned (DoTimeout env (length (sent w)) req d) (posted req w).

(** The request [postLog] prepares: URI, method, content type, the token
    header and the body. *)
Definition newRequest (o : Options) (b : JSON) : Request :=
  mkRequest (Host o) "POST" "application/json"
            [("billes-log-token", Token o)] b.

(** Matching on a value while keeping the equation that names it. *)
Definition inspect {A : Type} (x : A) : {y : A | x = y} := exist _ x eq_refl.

(** A payload is unencodable when [json.Marshal] fails on its record; the
    recursion of [log] through [Error] decreases this number. *)
Definition unencodable (e : logEntry) : nat :=
  match json_Marshal e with Some _ => 0%nat | None => 1%nat end.

Definition notInstantiated : string := "You need to instantiate the logger first".
Definition alreadyInstantiated : string :=
  "Trying to instantiate an already instantiated logger".
Definition hostNotSet : string := "Host is not set".
Definition notEncodable : string :=
  "Could not post to log due to " ++ quote ++ "data" ++ quote
  ++ " wasn't encodable - See local log".
Definition sendFailed (m : string) : string :=
  "Failed while sending log entry request: " ++ m.

(** The guard that opens [newEntry]: a nil [logr] ends the process
    through [log.Fatal]; otherwise the logger is at hand. *)
Definition instantiated : M logger :=
  fun w => match logr w with
           | None => coreLog_Fatal notInstantiated w
           | Some l => Returned l w
           end.

(** ** src/unnamed/part_000 *)
Module Part000.
Section WithEnv.
Variable env : Env.

(** [var logTags = []string{"logging"}] *)
Definition logTags : list string := ["logging"].

(** [func writeLocalLog(e logEntry)] *)
Definition writeLocalLog (e : logEntry) : M unit :=
  fun w =>
    let ts := time_Now_Format env (length (stdout w)) in
    fmt_Print (formatLine ts e) w.

(** [func newEntry(severity, tags, message, data) logEntry] *)
Definition newEntry (sev : severity) (tags : list string) (message : string)
    (data : Value) : M logEntry :=
  l <- instantiated ;;
  ret (mkEntry sev (System (options l) :: tags) message data).

(** [func postLog(body []byte) error] *)
Definition postLog (b : JSON) : M error :=
  l <- deref_logr ;;
  if String.eqb (Host (options l)) "" then ret (errors_New hostNotSet)
  else
    let req := newRequest (options l) b in
    err <- client_DoTimeout env req (duration (Timeout (options l))) ;;
    match err with
    | Some m =>
        if negb (String.eqb (Host (options l)) "") then
          entry <- newEntry warningSeverity logTags (sendFailed m) VNil ;;
          writeLocalLog entry ;;
          ret err
        else ret err
    | None => ret err
    end.

(** [func log(e logEntry) error].  The call [Error(logTags, ..., "")] of
    the failure branch is written out as the body of [Error] (the guard
    and the record of [newEntry], then [log] again) so that the recursion
    is on a record whose payload is the string [""]; [log_Error] below
    folds it back. *)
Equations? log (e : logEntry) : M error by wf (unencodable e) lt :=
log e with inspect (json_Marshal e) := {
  | exist _ None Hm :=
      writeLocalLog e ;;
      l <- instantiated ;;
      (fun w => log (mkEntry errorSeverity (System (options l) :: logTags)
                             notEncodable (VString "")) w) ;;
      ret None
  | exist _ (Some b) _ :=
      err <- postLog b ;;
      if isErr err then writeLocalLog e ;; ret err
      else
        l <- deref_logr ;;
        if Local (options l) then writeLocalLog e ;; ret err
        else ret err }.
Proof.
  unfold unencodable at 2. rewrite Hm. cbn. lia.
Qed.

(** [func Critical(tags []string, message string, data interface{})] *)
Definition Critical (tags : list string) (message : string) (data : Value) : M unit :=
  e <- newEntry criticalSeverity tags message data ;;
  log e ;;
  ret tt.

(** [func Debug(tags []string, message string, data interface{})] *)
Definition Debug (tags : list string) (message : string) (data : Value) : M unit :=
  e <- newEntry debugSeverity tags message data ;;
  log e ;;
  ret tt.

(** [func Error(tags []string, message string, data interface{})] *)
Definition Error (tags : list string) (message : string) (data : Value) : M unit :=
  e <- newEntry errorSeverity tags message data ;;
  log e ;;
  ret tt.

(** [func Info(tags []string, message string, data interface{})] *)
Definition Info (tags : list string) (message : string) (data : Value) : M unit :=
  e <- newEntry infoSeverity tags message data ;;
  log e ;;
  ret tt.

(** [func Warning(tags []string, message string, data interface{})] *)
Definition Warning (tags : list string) (message : string) (data : Value) : M unit :=
  e <- newEntry warningSeverity tags message data ;;
  log e ;;
  ret tt.

(** [func Fatal(tags []string, message string, data interface{})]; the
    test [err == nil && !logr.options.Local] reads [logr] only when the
    first conjunct holds. *)
Definition Fatal (tags : list string) (message : string) (data : Value) : M unit :=
  e <- newEntry criticalSeverity tags message data ;;
  err <- log e ;;
  (if isErr err then ret tt
   else
     l <- deref_logr ;;
     if negb (Local (options l)) then writeLocalLog e else ret tt) ;;
  os_Exit 1.

(** [func Init(o Options) error] *)
Definition Init (o : Options) : M error :=
  let o := if Timeout o <? 1 then setTimeout o timeout else o in
  p <- get_logr ;;
  match p with
  | Some _ =>
      let err := errors_New alreadyInstantiated in
      Error logTags alreadyInstantiated VNil ;;
      ret err
  | None =>
      set_logr o ;;
      (if String.eqb (Host o) "" then Warning logTags hostNotSet VNil
       else ret tt) ;;
      ret None
  end.

End WithEnv.
End Part000.

(** ** src/logger.go *)
Module LoggerGo.
Section WithEnv.
Variable env : Env.

(** [func writeLocalLog(e logEntry)] *)
Definition writeLocalLog (e : logEntry) : M unit :=
  fun w =>
    let ts := time_Now_Format env (length (stdout w)) in
    fmt_Print (formatLine ts e) w.

(** [func newEntry(severity, tags, message, data) logEntry] *)
Definition newEntry (sev : severity) (tags : list string) (message : string)
    (data : Value) : M logEntry :=
  l <- instantiated ;;
  ret (mkEntry sev (System (options l) :: tags) message data).

(** [func postLog(body []byte) error] *)
Definition postLog (b : JSON) : M error :=
  l <- deref_logr ;;
  if String.eqb (Host (options l)) "" then ret (errors_New hostNotSet)
  else
    let req := newRequest (options l) b in
    err <- client_DoTimeout env req (duration (Timeout (options l))) ;;
    ret err.

(** [func log(e logEntry) error], with the call
    [Error([]string{"logging"}, ..., "")] written out as in [Part000.log]. *)
Equations? log (e : logEntry) : M error by wf (unencodable e) lt :=
log e with inspect (json_Marshal e) := {
  | exist _ None Hm :=
      writeLocalLog e ;;
      l <- instantiated ;;
      (fun w => log (mkEntry errorSeverity (System (options l) :: ["logging"])
                             notEncodable (VString "")) w) ;;
      ret None
  | exist _ (Some b) _ :=
      err <- postLog b ;;
      if isErr err then writeLocalLog e ;; ret err
      else
        l <- deref_logr ;;
        if Local (options l) then writeLocalLog e ;; ret err
        else ret err }.
Proof.
  unfold unencodable at 2. rewrite Hm. cbn. lia.
Qed.

(** [func Critical(tags []string, message string, data interface{})] *)
Definition Critical (tags : list string) (message : string) (data : Value) : M unit :=
  e <- newEntry criticalSeverity tags message data ;;
  log e ;;
  ret tt.

(** [func Debug(tags []string, message string, data interface{})] *)
Definition Debug (tags : list string) (message : string) (data : Value) : M unit :=
  e <- newEntry debugSeverity tags message data ;;
  log e ;;
  ret tt.

(** [func Error(tags []string, message string, data interface{})] *)
Definition Error (tags : list string) (message : string) (data : Value) : M unit :=
  e <- newEntry errorSeverity tags message data ;;
  log e ;;
  ret tt.

(** [func Info(tags []string, message string, data interface{})] *)
Definition Info (tags : list string) (message : string) (data : Value) : M unit :=
  e <- newEntry infoSeverity tags message data ;;
  log e ;;
  ret tt.

(** [func Warning(tags []string, message string, data interface{})] *)
Definition Warning (tags : list string) (message : string) (data : Value) : M unit :=
  e <- newEntry warningSeverity tags message data ;;
  log e ;;
  ret tt.

(** [func Fatal(tags []string, message string, data interface{})]; the
    test [err == nil && !logr.options.Local] reads [logr] only when the
    first conjunct holds. *)
Definition Fatal (tags : list string) (message : string) (data : Value) : M unit :=
  e <- newEntry criticalSeverity tags message data ;;
  err <- log e ;;
  (if isErr err then ret tt
   else
     l <- deref_logr ;;
     if negb (Local (options l)) then writeLocalLog e else ret tt) ;;
  os_Exit 1.

(** [func Init(o Options) error] *)
Definition Init (o : Options) : M error :=
  let o := if Timeout o <? 1 then setTimeout o timeout else o in
  p <- get_logr ;;
  match p with
  | Some _ =>
      let err := errors_New alreadyInstantiated in
      Error ["logging"] alreadyInstantiated VNil ;;
      ret err
  | None =>
      set_logr o ;;
      ret None
  end.

End WithEnv.
End LoggerGo.

(** ** Vocabulary of the statements *)

(** The line a local write adds in world [w]: its time stamp is the one
    the clock yields for the next line. *)
Definition lineAt (env : Env) (w : World) (e : logEntry) : string :=
  formatLine (time_Now_Format env (length (stdout w))) e.

(** The type the exported logging functions share. *)
Definition emitter : Type := list string -> string -> Value -> M unit.

(** The configuration [Init] keeps for [o]: [o] itself, with the timeout
    replaced by the default when it is below 1. *)
Definition stored (o : Options) : Options :=
  mkOptions (Host o) (System o) (Token o) (Local o)
            (if Timeout o <? 1 then 10 else Timeout o).

(** The records [Init] itself emits. *)
Definition rejectedInit (l : logger) : logEntry :=
  mkEntry errorSeverity [System (options l); "logging"] alreadyInstantiated VNil.

Definition hostWarning (o : Options) : logEntry :=
  mkEntry warningSeverity [System o; "logging"] hostNotSet VNil.

(** The world once [logr] points at a logger built from [o]. *)
Definition initialised (o : Options) (w : World) : World :=
  mkWorld (Some (mkLogger o)) (stdout w) (stderr w) (sent w).

(** The record the failure branch of [log] sends through [Error], and the
    one [postLog] writes when the round trip fails. *)
Definition secondaryError (l : logger) : logEntry :=
  mkEntry errorSeverity [System (options l); "logging"] notEncodable (VString "").

Definition transportWarning (l : logger) (m : string) : logEntry :=
  mkEntry warningSeverity [System (options l); "logging"] (sendFailed m) VNil.

(** The five emitters that return, each with the severity it stamps. *)
Definition emitters (env : Env) : list (severity * emitter) :=
  [(criticalSeverity, Part000.Critical env); (debugSeverity, Part000.Debug env);
   (errorSeverity, Part000.Error env); (infoSeverity, Part000.Info env);
   (warningSeverity, Part000.Warning env)].

Definition go_emitters (env : Env) : list (severity * emitter) :=
  [(criticalSeverity, LoggerGo.Critical env); (debugSeverity, LoggerGo.Debug env);
   (errorSeverity, LoggerGo.Error env); (infoSeverity, LoggerGo.Info env);
   (warningSeverity, LoggerGo.Warning env)].

(** ** A concrete process for the examples *)

(** A clock that advances one second per line, and a network whose
    first round trip times out while the second succeeds. *)
Definition sampleEnv : Env :=
  mkEnv (fun n => "2024-05-01 12:00:0" ++ String (ascii_of_nat (48 + n)) "")
        (fun n _ _ => if Nat.even n then Some "timeout" else None).

Definition localOptions : Options := mkOptions "" "svc" "" false 10.
Definition remoteOptions : Options := mkOptions "http://logs" "svc" "tok" false 0.

Definition remoteLogger : logger := mkLogger (stored remoteOptions).

Definition localWorld : World := initialised localOptions initialWorld.
Definition remoteWorld : World := initialised (stored remoteOptions) initialWorld.

(** The remote process after one round trip has been used up. *)
Definition remoteWorldAfterOne : World :=
  posted (newRequest (stored remoteOptions) JNull) remoteWorld.

(** ** Programs over the exported functions *)

(** One call of an exported function of part_000, as a caller writes it. *)
Inductive call : Type :=
| CallInit (o : Options)
| CallCritical (tags : list string) (message : string) (data : Value)
| CallDebug (tags : list string) (message : string) (data : Value)
| CallError (tags : list string) (message : string) (data : Value)
| CallFatal (tags : list string) (message : string) (data : Value)
| CallInfo (tags : list string) (message : string) (data : Value)
| CallWarning (tags : list string) (message : string) (data : Value).

(** The call itself; the error [Init] returns is dropped by the caller. *)
Definition exec (env : Env) (c : call) : M unit :=
  match c with
  | CallInit o => Part000.Init env o ;; ret tt
  | CallCritical tags message data => Part000.Critical env tags message data
  | CallDebug tags message data => Part000.Debug env tags message data
  | CallError tags message data => Part000.Error env tags message data
  | CallFatal tags message data => Part000.Fatal env tags message data
  | CallInfo tags message data => Part000.Info env tags message data
  | CallWarning tags message data => Part000.Warning env tags message data
  end.

(** A straight-line caller: the calls one after the other. *)
Fixpoint run (env : Env) (cs : list call) : M unit :=
  match cs with
  | [] => ret tt
  | c :: rest => exec env c ;; run env rest
  end.

(** The world a computation leaves, however it ended. *)
Definition worldOf {A} (o : Outcome A) : World :=
  match o with
  | Returned _ w => w
  | Exited _ w => w
  | Panicked w => w
  end.

(** [w'] is [w] after a call made under logger [l]: same logger, same
    standard error, standard output extended, and at most one more
    request, which then is the one [postLog] prepares for a host that is
    not empty. *)
Definition extends (l : logger) (w w' : World) : Prop :=
  exists lines reqs,
    w' = mkWorld (Some l) (stdout w ++ lines) (stderr w) (sent w ++ reqs)
    /\ (reqs = []
        \/ Host (options l) <> ""
           /\ exists b, reqs = [newRequest (options l) b]).

(** A configured process: [logr] is set, nothing was written on standard
    error, and every request so far was prepared from the configuration
    in force, whose host is not empty. *)
Definition configured (w : World) : Prop :=
  exists l,
    logr w = Some l
    /\ stderr w = []
    /\ forall req, In req (sent w) ->
         Host (options l) <> "" /\ exists b, req = newRequest (options l) b.

(** The ways a caller may end: returned in the untouched initial world or
    in a configured one, or exited with status 1, either from the guard
    of [newEntry] before anything was printed or sent, or from a
    configured process. *)
Definition safeOutcome (o : Outcome unit) : Prop :=
  match o with
  | Returned _ w => w = initialWorld \/ configured w
  | Exited c w =>
      c = 1 /\ (w = mkWorld None [] [notInstantiated] [] \/ configured w)
  | Panicked _ => False
  end.

(** A network on which no round trip fails. *)
Definition neverFails (env : Env) : Prop :=
  forall n req d, DoTimeout env n req d = None.

(** A clock like [sampleEnv]'s, over a network that never fails. *)
Definition quietEnv : Env :=
  mkEnv (time_Now_Format sampleEnv) (fun _ _ _ => None).

(** A configuration that mirrors every record locally, and one whose
    timeout is too large for a duration in nanoseconds. *)
Definition mirrorOptions : Options := mkOptions "http://logs" "svc" "tok" true 30.
Definition mirrorWorld : World := initialised mirrorOptions initialWorld.

Definition farOptions : Options :=
  mkOptions "http://logs" "svc" "tok" false 9223372037.
Definition farWorld : World := initialised farOptions initialWorld.

(** * Properties *)

(** ** Shared facts about the runtime model *)

Lemma encodable_json_Marshal (e : logEntry) (d : JSON) :
  encodeValue (Data e) = Some d ->
  json_Marshal e = Some (entryJSON e d).
Proof. intros H. unfold json_Marshal. rewrite H. reflexivity. Qed.

Lemma json_Marshal_None (e : logEntry) :
  json_Marshal e = None <-> encodeValue (Data e) = None.
Proof.
  unfold json_Marshal. destruct (encodeValue (Data e)); split; congruence.
Qed.

Lemma eqb_empty_false (s : string) : s <> "" -> String.eqb s "" = false.
Proof. intros H. apply String.eqb_neq. exact H. Qed.

Lemma stored_eq (o : Options) :
  (if Timeout o <? 1 then setTimeout o timeout else o) = stored o.
Proof.
  unfold stored, setTimeout, timeout.
  destruct (Timeout o <? 1); [reflexivity | destruct o; reflexivity].
Qed.

(** ** part_000: the dispatch function, case by case *)

Section Part000Dispatch.
Import Part000.
Variable env : Env.


Lemma log_Some (e : logEntry) (b : JSON) (w : World) :
  json_Marshal e = Some b ->
  log env e w =
    (err <- postLog env b ;;
     if isErr err then writeLocalLog env e ;; ret err
     else
       l <- deref_logr ;;
       if Local (options l) then writeLocalLog env e ;; ret err
       else ret err) w.
Proof.
  intros H. funelim (log env e); try congruence.
Qed.

Lemma log_None (e : logEntry) (w : World) :
  json_Marshal e = None ->
  log env e w =
    (writeLocalLog env e ;;
     Error env logTags notEncodable (VString "") ;;
     ret None) w.
Proof.
  intros H. funelim (log env e); try congruence.
  unfold Error, newEntry, bind, writeLocalLog, fmt_Print, instantiated, ret.
  destruct (logr (printed _ w)); [|reflexivity].
  destruct (log env _ _); reflexivity.
Qed.


Lemma newEntry_run (sev : severity) (tags : list string) (message : string)
    (data : Value) (w : World) (l : logger) :
  logr w = Some l ->
  newEntry sev tags message data w =
    Returned (mkEntry sev (System (options l) :: tags) message data) w.
Proof.
  intros Hl. unfold newEntry, bind, instantiated. rewrite Hl. reflexivity.
Qed.

Lemma newEntry_nil (sev : severity) (tags : list string) (message : string)
    (data : Value) (w : World) :
  logr w = None ->
  newEntry sev tags message data w =
    Exited 1 (mkWorld None (stdout w) (stderr w ++ [notInstantiated]) (sent w)).
Proof.
  intros Hl. unfold newEntry, bind, instantiated, coreLog_Fatal.
  rewrite Hl. reflexivity.
Qed.

Lemma postLog_run (b : JSON) (w : World) (l : logger) :
  logr w = Some l ->
  postLog env b w =
    if String.eqb (Host (options l)) "" then Returned (errors_New hostNotSet) w
    else
      let req := newRequest (options l) b in
      match DoTimeout env (length (sent w)) req (duration (Timeout (options l))) with
      | None => Returned None (posted req w)
      | Some m =>
          Returned (Some m)
            (printed (lineAt env w (transportWarning l m)) (posted req w))
      end.
Proof.
  intros Hl. unfold postLog, bind, deref_logr. rewrite Hl.
  destruct (String.eqb (Host (options l)) ""); [reflexivity|].
  unfold client_DoTimeout. cbv zeta.
  destruct (DoTimeout env _ _ _); [|reflexivity].
  unfold negb, bind.
  rewrite (newEntry_run _ _ _ _ (posted _ w) l Hl). reflexivity.
Qed.

(** Dispatch of a record that serialises, in an initialised process. *)
Lemma log_run (e : logEntry) (b : JSON) (w : World) (l : logger) :
  json_Marshal e = Some b ->
  logr w = Some l ->
  log env e w =
    if String.eqb (Host (options l)) "" then
      Returned (errors_New hostNotSet) (printed (lineAt env w e) w)
    else
      let req := newRequest (options l) b in
      match DoTimeout env (length (sent w)) req (duration (Timeout (options l))) with
      | None =>
          Returned None
            (if Local (options l) then printed (lineAt env w e) (posted req w)
             else posted req w)
      | Some m =>
          let w1 := printed (lineAt env w (transportWarning l m)) (posted req w) in
          Returned (Some m) (printed (lineAt env w1 e) w1)
      end.
Proof.
  intros Hb Hl. rewrite (log_Some e b w Hb).
  unfold bind at 1. rewrite (postLog_run b w l Hl).
  destruct (String.eqb (Host (options l)) ""); [reflexivity|].
  cbv zeta. destruct (DoTimeout env _ _ _); [reflexivity|].
  unfold isErr, bind, deref_logr.
  change (logr (posted (newRequest (options l) b) w)) with (logr w).
  rewrite Hl. destruct (Local (options l)); reflexivity.
Qed.

(** What every dispatch of a serialisable record has in common: it
    returns, [logr] stays, at most one request goes out (none without a
    host), and standard output only grows. *)
Lemma log_run_facts (e : logEntry) (b : JSON) (w : World) (l : logger) :
  json_Marshal e = Some b ->
  logr w = Some l ->
  exists r w' lines,
    log env e w = Returned r w'
    /\ logr w' = Some l
    /\ sent w' = (sent w ++ (if String.eqb (Host (options l)) "" then []
                            else [newRequest (options l) b]))%list
    /\ stdout w' = (stdout w ++ lines)%list
    /\ (Host (options l) = "" -> lines = [lineAt env w e]).
Proof.
  intros Hb Hl. rewrite (log_run e b w l Hb Hl).
  destruct (String.eqb_spec (Host (options l)) "") as [Hh | Hh].
  - do 3 eexists. split; [reflexivity|]. split; [exact Hl|].
    split; [symmetry; apply app_nil_r|]. split; [reflexivity|].
    intros _. reflexivity.
  - cbv zeta. destruct (DoTimeout env _ _ _).
    + do 3 eexists. split; [reflexivity|]. split; [exact Hl|].
      split; [reflexivity|]. split; [|intros Hh'; contradiction].
      cbn [stdout printed posted]. rewrite <- app_assoc. reflexivity.
    + destruct (Local (options l)); do 3 eexists;
        (split; [reflexivity|]); (split; [exact Hl|]);
        (split; [reflexivity|]); (split; [|intros Hh'; contradiction]);
        cbn [stdout printed posted].
      * reflexivity.
      * symmetry. apply app_nil_r.
Qed.

(** The failure branch of [log] in an initialised process: the local
    line, then the dispatch of the secondary ERROR record, then nil. *)
Lemma log_unencodable (e : logEntry) (w : World) (l : logger) :
  json_Marshal e = None ->
  logr w = Some l ->
  log env e w =
    (log env (secondaryError l) ;; ret None) (printed (lineAt env w e) w).
Proof.
  intros Hn Hl. rewrite (log_None e w Hn).
  unfold bind at 1, writeLocalLog, fmt_Print.
  cbv zeta. fold (lineAt env w e).
  unfold Error. unfold bind at 1 2.
  rewrite (newEntry_run _ _ _ _ (printed (lineAt env w e) w) l Hl).
  unfold bind. unfold secondaryError, logTags.
  destruct (log env _ _); reflexivity.
Qed.

Lemma secondary_json_Marshal (l : logger) :
  json_Marshal (secondaryError l) =
    Some (entryJSON (secondaryError l) (JString "")).
Proof. reflexivity. Qed.

(** In an initialised process [log] returns for every record, with
    [logr] as it was and standard output extended. *)
Lemma log_returns (e : logEntry) (w : World) (l : logger) :
  logr w = Some l ->
  exists r w' lines,
    log env e w = Returned r w'
    /\ logr w' = Some l
    /\ stdout w' = (stdout w ++ lines)%list.
Proof.
  intros Hl. destruct (json_Marshal e) as [b|] eqn:Hm.
  - destruct (log_run_facts e b w l Hm Hl)
      as (r & w' & lines & Hrun & Hl' & _ & Hout & _).
    exists r, w', lines. repeat split; assumption.
  - destruct (log_run_facts (secondaryError l) _ (printed (lineAt env w e) w)
                l (secondary_json_Marshal l) Hl)
      as (r & w' & lines & Hrun & Hl' & _ & Hout & _).
    exists None, w', (lineAt env w e :: lines).
    rewrite (log_unencodable e w l Hm Hl). unfold bind. rewrite Hrun.
    split; [reflexivity|]. split; [exact Hl'|].
    rewrite Hout. cbn [stdout printed]. rewrite <- app_assoc. reflexivity.
Qed.

Lemma Init_first (o : Options) (w : World) :
  logr w = None ->
  Init env o w =
    Returned None
      (if String.eqb (Host o) "" then
         printed (lineAt env w (hostWarning o)) (initialised (stored o) w)
       else initialised (stored o) w).
Proof.
  intros Hl. unfold Init. rewrite stored_eq.
  unfold bind at 1, get_logr. rewrite Hl.
  unfold bind at 1, set_logr.
  change (mkWorld (Some (mkLogger (stored o))) (stdout w) (stderr w) (sent w))
    with (initialised (stored o) w).
  change (Host (stored o)) with (Host o).
  destruct (String.eqb (Host o) "") eqn:Hh; [|reflexivity].
  unfold bind at 1, Warning. unfold bind at 1.
  rewrite (newEntry_run _ _ _ _ (initialised (stored o) w) (mkLogger (stored o)) eq_refl).
  change (mkEntry warningSeverity
            (System (options (mkLogger (stored o))) :: logTags) hostNotSet VNil)
    with (hostWarning o).
  unfold bind at 1.
  rewrite (log_run (hostWarning o) _ (initialised (stored o) w)
             (mkLogger (stored o))
             (encodable_json_Marshal (hostWarning o) JNull eq_refl) eq_refl).
  change (Host (options (mkLogger (stored o)))) with (Host o). rewrite Hh.
  reflexivity.
Qed.

Lemma Init_again (o : Options) (w : World) (l : logger) :
  logr w = Some l ->
  Init env o w =
    (log env (rejectedInit l) ;; ret (errors_New alreadyInstantiated)) w.
Proof.
  intros Hl. unfold Init. unfold bind at 1, get_logr. rewrite Hl.
  unfold Error. unfold bind at 1 2. rewrite (newEntry_run _ _ _ _ w l Hl).
  unfold bind. destruct (log env _ w); reflexivity.
Qed.

End Part000Dispatch.

(** ** part_000: the specified properties *)

Section Part000Claims.
Import Part000.
Variable env : Env.

Lemma emitter_run (sev : severity) (f : emitter) (tags : list string)
    (message : string) (data : Value) (w : World) (l : logger) :
  In (sev, f) (emitters env) ->
  logr w = Some l ->
  f tags message data w =
    (log env (mkEntry sev (System (options l) :: tags) message data) ;; ret tt) w.
Proof.
  intros Hin Hl. unfold emitters in Hin.
  repeat (destruct Hin as [Hin | Hin];
          [injection Hin as <- <-;
           unfold Critical, Debug, Error, Info, Warning;
           unfold bind at 1; rewrite (newEntry_run _ _ _ _ w l Hl); reflexivity|]).
  destruct Hin.
Qed.

Lemma emitter_nil (sev : severity) (f : emitter) (tags : list string)
    (message : string) (data : Value) (w : World) :
  In (sev, f) (emitters env) ->
  logr w = None ->
  f tags message data w =
    Exited 1 (mkWorld None (stdout w) (stderr w ++ [notInstantiated]) (sent w)).
Proof.
  intros Hin Hl. unfold emitters in Hin.
  repeat (destruct Hin as [Hin | Hin];
          [injection Hin as <- <-;
           unfold Critical, Debug, Error, Info, Warning;
           unfold bind at 1; rewrite (newEntry_nil _ _ _ _ w Hl); reflexivity|]).
  destruct Hin.
Qed.

Lemma Fatal_run (tags : list string) (message : string) (data : Value)
    (w : World) (l : logger) :
  logr w = Some l ->
  Fatal env tags message data w =
    (let e := mkEntry criticalSeverity (System (options l) :: tags) message data in
     err <- log env e ;;
     (if isErr err then ret tt
      else
        l' <- deref_logr ;;
        if negb (Local (options l')) then writeLocalLog env e else ret tt) ;;
     os_Exit 1) w.
Proof.
  intros Hl. unfold Fatal. unfold bind at 1.
  rewrite (newEntry_run _ _ _ _ w l Hl). reflexivity.
Qed.






(** In part_000, when the round trip fails and [Local] is false, a record
    sent
    through an emitter is printed locally once, after one WARNING record
    tagged "logging" that reports the transport error; these two lines are
    all that is printed, and [Fatal] prints the same two before it exits. *)
Theorem failed_delivery_printed_once (sev : severity) (f : emitter)
    (tags : list string) (message : string) (data : Value) (d : JSON)
    (m : string) (w : World) (l : logger) :
  In (sev, f) (emitters env) ->
  logr w = Some l ->
  Host (options l) <> "" ->
  Local (options l) = false ->
  encodeValue data = Some d ->
  let e := mkEntry sev (System (options l) :: tags) message data in
  let c := mkEntry criticalSeverity (System (options l) :: tags) message data in
  let t0 := time_Now_Format env (length (stdout w)) in
  let t1 := time_Now_Format env (S (length (stdout w))) in
  (DoTimeout env (length (sent w)) (newRequest (options l) (entryJSON e d))
             (duration (Timeout (options l))) = Some m ->
   exists w',
     f tags message data w = Returned tt w'
     /\ log env e w = Returned (Some m) w'
     /\ sent w' = (sent w ++ [newRequest (options l) (entryJSON e d)])%list
     /\ stdout w' = (stdout w ++ [formatLine t0 (transportWarning l m);
                                  formatLine t1 e])%list) /\
  (DoTimeout env (length (sent w)) (newRequest (options l) (entryJSON c d))
             (duration (Timeout (options l))) = Some m ->
   exists w',
     Fatal env tags message data w = Exited 1 w'
     /\ sent w' = (sent w ++ [newRequest (options l) (entryJSON c d)])%list
     /\ stdout w' = (stdout w ++ [formatLine t0 (transportWarning l m);
                                  formatLine t1 c])%list).
Proof.
  intros Hin Hl Hh Hloc Hd e c t0 t1.
  assert (Hlen : forall x y : string,
             length (stdout w ++ [x])%list = S (length (stdout w))
             /\ ((stdout w ++ [x]) ++ [y] = stdout w ++ [x; y])%list).
  { intros x y. split.
    - rewrite length_app. cbn. lia.
    - rewrite <- app_assoc. reflexivity. }
  split; intros Hnet.
  - rewrite (emitter_run sev f tags message data w l Hin Hl). unfold bind.
    fold e.
    rewrite (log_run env e _ w l (encodable_json_Marshal e d Hd) Hl).
    rewrite (eqb_empty_false _ Hh). cbv zeta. rewrite Hnet.
    eexists. split; [reflexivity|]. split; [reflexivity|].
    split; [reflexivity|].
    unfold lineAt. cbn [sent stdout printed posted].
    rewrite (proj1 (Hlen _ EmptyString)). apply Hlen.
  - rewrite (Fatal_run tags message data w l Hl). cbv zeta. unfold bind.
    fold c.
    rewrite (log_run env c _ w l (encodable_json_Marshal c d Hd) Hl).
    rewrite (eqb_empty_false _ Hh). cbv zeta. rewrite Hnet.
    eexists. split; [reflexivity|]. split; [reflexivity|].
    unfold lineAt. cbn [sent stdout printed posted].
    rewrite (proj1 (Hlen _ EmptyString)). apply Hlen.
Qed.




(** In part_000, with an empty host nothing is ever handed to the HTTP
    client:
    [postLog] returns the host-not-set error at once, every record sent
    through an emitter is printed locally (followed by the secondary ERROR
    record when its payload does not serialise), and a first [Init] with
    such a configuration prints exactly one WARNING line, "Host is not
    set". *)
Theorem empty_host_local_only (o : Options) (w0 w : World) (l : logger) :
  logr w0 = None ->
  Host o = "" ->
  logr w = Some l ->
  Host (options l) = "" ->
  (exists w1,
      Init env o w0 = Returned None w1
      /\ sent w1 = sent w0
      /\ stdout w1 = (stdout w0 ++ [lineAt env w0 (hostWarning o)])%list
      /\ Severity (hostWarning o) = warningSeverity
      /\ Message (hostWarning o) = hostNotSet) /\
  (forall b, postLog env b w = Returned (errors_New hostNotSet) w) /\
  (forall sev f tags message data,
      In (sev, f) (emitters env) ->
      let e := mkEntry sev (System (options l) :: tags) message data in
      let w1 := printed (lineAt env w e) w in
      exists w',
        f tags message data w = Returned tt w'
        /\ sent w' = sent w
        /\ stdout w' =
             (stdout w ++ lineAt env w e ::
                match encodeValue data with
                | Some _ => []
                | None => [lineAt env w1 (secondaryError l)]
                end)%list) /\
  (forall tags message data,
      let e := mkEntry criticalSeverity (System (options l) :: tags) message data in
      exists w' rest,
        Fatal env tags message data w = Exited 1 w'
        /\ sent w' = sent w
        /\ stdout w' = (stdout w ++ lineAt env w e :: rest)%list).
Proof.
  intros H0 Ho Hl Hh.
  assert (Hsec : forall w1, logr w1 = Some l ->
            log env (secondaryError l) w1 =
              Returned (errors_New hostNotSet)
                       (printed (lineAt env w1 (secondaryError l)) w1)).
  { intros w1 Hl1.
    rewrite (log_run env _ _ w1 l (secondary_json_Marshal l) Hl1).
    rewrite Hh. reflexivity. }
  split; [|split; [|split]].
  - rewrite (Init_first env o w0 H0). rewrite Ho. cbn [String.eqb].
    eexists. split; [reflexivity|]. repeat split; reflexivity.
  - intros b. rewrite (postLog_run env b w l Hl). rewrite Hh. reflexivity.
  - intros sev f tags message data Hin e w1.
    rewrite (emitter_run sev f tags message data w l Hin Hl). fold e.
    unfold bind. destruct (encodeValue data) as [d|] eqn:Hd.
    + rewrite (log_run env e _ w l (encodable_json_Marshal e d Hd) Hl).
      rewrite Hh. cbn [String.eqb]. eexists. split; [reflexivity|].
      split; reflexivity.
    + rewrite (log_unencodable env e w l (proj2 (json_Marshal_None e) Hd) Hl).
      unfold bind. fold w1. rewrite (Hsec w1 Hl). eexists.
      split; [reflexivity|]. split; [reflexivity|].
      cbn [stdout printed]. unfold w1. cbn [stdout printed].
      rewrite <- app_assoc. reflexivity.
  - intros tags message data e.
    rewrite (Fatal_run tags message data w l Hl). cbv zeta. fold e.
    unfold bind at 1. destruct (encodeValue data) as [d|] eqn:Hd.
    + rewrite (log_run env e _ w l (encodable_json_Marshal e d Hd) Hl).
      rewrite Hh. cbn [String.eqb]. eexists. exists [].
      split; [reflexivity|]. split; reflexivity.
    + rewrite (log_unencodable env e w l (proj2 (json_Marshal_None e) Hd) Hl).
      unfold bind. rewrite (Hsec (printed (lineAt env w e) w) Hl). cbn [ret isErr].
      unfold deref_logr.
      change (logr (printed _ (printed _ w))) with (logr w). rewrite Hl.
      destruct (negb (Local (options l))); eexists; eexists;
        (split; [reflexivity|]); (split; [reflexivity|]);
        cbn [stdout printed]; rewrite <- !app_assoc; reflexivity.
Qed.

End Part000Claims.

(** ** The part_000 properties at concrete inputs *)






Lemma failed_delivery_printed_once_witness :
  In (errorSeverity, Part000.Error sampleEnv) (emitters sampleEnv)
  /\ logr remoteWorld = Some remoteLogger
  /\ Host (options remoteLogger) <> ""
  /\ Local (options remoteLogger) = false
  /\ encodeValue VNil = Some JNull
  /\ exists w',
       Part000.Error sampleEnv ["db"] "lost" VNil remoteWorld = Returned tt w'
       /\ length (stdout w') = 2%nat.
Proof.
  assert (Hin : In (errorSeverity, Part000.Error sampleEnv) (emitters sampleEnv))
    by (do 2 right; left; reflexivity).
  assert (Hh : Host (options remoteLogger) <> "") by (intros H; discriminate H).
  split; [exact Hin|]. split; [reflexivity|]. split; [exact Hh|].
  split; [reflexivity|]. split; [reflexivity|].
  destruct (proj1 (failed_delivery_printed_once sampleEnv errorSeverity
                     (Part000.Error sampleEnv) ["db"] "lost" VNil JNull "timeout"
                     remoteWorld remoteLogger Hin eq_refl Hh eq_refl eq_refl)
              eq_refl)
    as (w' & Hrun & _ & _ & Hout).
  exists w'. split; [exact Hrun|]. rewrite Hout. reflexivity.
Defined.




Lemma empty_host_local_only_witness :
  logr initialWorld = None
  /\ Host localOptions = ""
  /\ logr localWorld = Some (mkLogger localOptions)
  /\ Host (options (mkLogger localOptions)) = ""
  /\ exists w1,
       Part000.Init sampleEnv localOptions initialWorld = Returned None w1
       /\ sent w1 = []
       /\ stdout w1 = ["2024-05-01 12:00:00 WARNING - [svc logging] - Host is not set"
                       ++ newline].
Proof.
  split; [reflexivity|]. split; [reflexivity|]. split; [reflexivity|].
  split; [reflexivity|].
  destruct (proj1 (empty_host_local_only sampleEnv localOptions initialWorld
                     localWorld (mkLogger localOptions)
                     eq_refl eq_refl eq_refl eq_refl))
    as (w1 & Hrun & Hsent & Hout & _).
  exists w1. split; [exact Hrun|]. split; [exact Hsent | exact Hout].
Defined.

(** The worked example of the specification: with an empty host [Init]
    prints the warning, and [Info] then prints exactly one more line. *)
Example spec_example_run :
  (Part000.Init sampleEnv localOptions ;;
   Part000.Info sampleEnv ["startup"] "ready" VNil) initialWorld =
  Returned tt
    (mkWorld (Some (mkLogger localOptions))
       ["2024-05-01 12:00:00 WARNING - [svc logging] - Host is not set" ++ newline;
        "2024-05-01 12:00:01 INFO - [svc startup] - ready" ++ newline]
       [] []).
Proof. reflexivity. Qed.

(** ** logger.go: the dispatch function, case by case *)

Section LoggerGoDispatch.
Import LoggerGo.
Variable env : Env.


Lemma go_log_Some (e : logEntry) (b : JSON) (w : World) :
  json_Marshal e = Some b ->
  log env e w =
    (err <- postLog env b ;;
     if isErr err then writeLocalLog env e ;; ret err
     else
       l <- deref_logr ;;
       if Local (options l) then writeLocalLog env e ;; ret err
       else ret err) w.
Proof.
  intros H. funelim (log env e); try congruence.
Qed.

Lemma go_log_None (e : logEntry) (w : World) :
  json_Marshal e = None ->
  log env e w =
    (writeLocalLog env e ;;
     Error env ["logging"] notEncodable (VString "") ;;
     ret None) w.
Proof.
  intros H. funelim (log env e); try congruence.
  unfold Error, newEntry, bind, writeLocalLog, fmt_Print, instantiated, ret.
  destruct (logr (printed _ w)); [|reflexivity].
  destruct (log env _ _); reflexivity.
Qed.


Lemma go_newEntry_run (sev : severity) (tags : list string) (message : string)
    (data : Value) (w : World) (l : logger) :
  logr w = Some l ->
  newEntry sev tags message data w =
    Returned (mkEntry sev (System (options l) :: tags) message data) w.
Proof.
  intros Hl. unfold newEntry, bind, instantiated. rewrite Hl. reflexivity.
Qed.

Lemma go_newEntry_nil (sev : severity) (tags : list string) (message : string)
    (data : Value) (w : World) :
  logr w = None ->
  newEntry sev tags message data w =
    Exited 1 (mkWorld None (stdout w) (stderr w ++ [notInstantiated]) (sent w)).
Proof.
  intros Hl. unfold newEntry, bind, instantiated, coreLog_Fatal.
  rewrite Hl. reflexivity.
Qed.

Lemma go_postLog_run (b : JSON) (w : World) (l : logger) :
  logr w = Some l ->
  postLog env b w =
    if String.eqb (Host (options l)) "" then Returned (errors_New hostNotSet) w
    else
      let req := newRequest (options l) b in
      match DoTimeout env (length (sent w)) req (duration (Timeout (options l))) with
      | None => Returned None (posted req w)
      | Some m => Returned (Some m) (posted req w)
      end.
Proof.
  intros Hl. unfold postLog, bind, deref_logr. rewrite Hl.
  destruct (String.eqb (Host (options l)) ""); [reflexivity|].
  unfold client_DoTimeout. cbv zeta.
  destruct (DoTimeout env _ _ _); reflexivity.
Qed.

(** Dispatch of a record that serialises, in an initialised process. *)
Lemma go_log_run (e : logEntry) (b : JSON) (w : World) (l : logger) :
  json_Marshal e = Some b ->
  logr w = Some l ->
  log env e w =
    if String.eqb (Host (options l)) "" then
      Returned (errors_New hostNotSet) (printed (lineAt env w e) w)
    else
      let req := newRequest (options l) b in
      match DoTimeout env (length (sent w)) req (duration (Timeout (options l))) with
      | None =>
          Returned None
            (if Local (options l) then printed (lineAt env w e) (posted req w)
             else posted req w)
      | Some m => Returned (Some m) (printed (lineAt env w e) (posted req w))
      end.
Proof.
  intros Hb Hl. rewrite (go_log_Some e b w Hb).
  unfold bind at 1. rewrite (go_postLog_run b w l Hl).
  destruct (String.eqb (Host (options l)) ""); [reflexivity|].
  cbv zeta. destruct (DoTimeout env _ _ _); [reflexivity|].
  unfold isErr, bind, deref_logr.
  change (logr (posted (newRequest (options l) b) w)) with (logr w).
  rewrite Hl. destruct (Local (options l)); reflexivity.
Qed.

(** What every dispatch of a serialisable record has in common: it
    returns, [logr] stays, at most one request goes out (none without a
    host), and standard output only grows. *)
Lemma go_log_run_facts (e : logEntry) (b : JSON) (w : World) (l : logger) :
  json_Marshal e = Some b ->
  logr w = Some l ->
  exists r w' lines,
    log env e w = Returned r w'
    /\ logr w' = Some l
    /\ sent w' = (sent w ++ (if String.eqb (Host (options l)) "" then []
                            else [newRequest (options l) b]))%list
    /\ stdout w' = (stdout w ++ lines)%list
    /\ (Host (options l) = "" -> lines = [lineAt env w e]).
Proof.
  intros Hb Hl. rewrite (go_log_run e b w l Hb Hl).
  destruct (String.eqb_spec (Host (options l)) "") as [Hh | Hh].
  - do 3 eexists. split; [reflexivity|]. split; [exact Hl|].
    split; [symmetry; apply app_nil_r|]. split; [reflexivity|].
    intros _. reflexivity.
  - cbv zeta. destruct (DoTimeout env _ _ _).
    + do 3 eexists. split; [reflexivity|]. split; [exact Hl|].
      split; [reflexivity|]. split; [|intros Hh'; contradiction].
      cbn [stdout printed posted]. reflexivity.
    + destruct (Local (options l)); do 3 eexists;
        (split; [reflexivity|]); (split; [exact Hl|]);
        (split; [reflexivity|]); (split; [|intros Hh'; contradiction]);
        cbn [stdout printed posted].
      * reflexivity.
      * symmetry. apply app_nil_r.
Qed.

(** The failure branch of [log] in an initialised process: the local
    line, then the dispatch of the secondary ERROR record, then nil. *)
Lemma go_log_unencodable (e : logEntry) (w : World) (l : logger) :
  json_Marshal e = None ->
  logr w = Some l ->
  log env e w =
    (log env (secondaryError l) ;; ret None) (printed (lineAt env w e) w).
Proof.
  intros Hn Hl. rewrite (go_log_None e w Hn).
  unfold bind at 1, writeLocalLog, fmt_Print.
  cbv zeta. fold (lineAt env w e).
  unfold Error. unfold bind at 1 2.
  rewrite (go_newEntry_run _ _ _ _ (printed (lineAt env w e) w) l Hl).
  unfold bind. unfold secondaryError.
  destruct (log env _ _); reflexivity.
Qed.

(** In an initialised process [log] returns for every record, with
    [logr] as it was and standard output extended. *)
Lemma go_log_returns (e : logEntry) (w : World) (l : logger) :
  logr w = Some l ->
  exists r w' lines,
    log env e w = Returned r w'
    /\ logr w' = Some l
    /\ stdout w' = (stdout w ++ lines)%list.
Proof.
  intros Hl. destruct (json_Marshal e) as [b|] eqn:Hm.
  - destruct (go_log_run_facts e b w l Hm Hl)
      as (r & w' & lines & Hrun & Hl' & _ & Hout & _).
    exists r, w', lines. repeat split; assumption.
  - destruct (go_log_run_facts (secondaryError l) _ (printed (lineAt env w e) w)
                l (secondary_json_Marshal l) Hl)
      as (r & w' & lines & Hrun & Hl' & _ & Hout & _).
    exists None, w', (lineAt env w e :: lines).
    rewrite (go_log_unencodable e w l Hm Hl). unfold bind. rewrite Hrun.
    split; [reflexivity|]. split; [exact Hl'|].
    rewrite Hout. cbn [stdout printed]. rewrite <- app_assoc. reflexivity.
Qed.

Lemma go_Init_first (o : Options) (w : World) :
  logr w = None ->
  Init env o w = Returned None (initialised (stored o) w).
Proof.
  intros Hl. unfold Init. rewrite stored_eq.
  unfold bind at 1, get_logr. rewrite Hl.
  unfold bind at 1, set_logr.
  change (mkWorld (Some (mkLogger (stored o))) (stdout w) (stderr w) (sent w))
    with (initialised (stored o) w).
  reflexivity.
Qed.

Lemma go_Init_again (o : Options) (w : World) (l : logger) :
  logr w = Some l ->
  Init env o w =
    (log env (rejectedInit l) ;; ret (errors_New alreadyInstantiated)) w.
Proof.
  intros Hl. unfold Init. unfold bind at 1, get_logr. rewrite Hl.
  unfold Error. unfold bind at 1 2. rewrite (go_newEntry_run _ _ _ _ w l Hl).
  unfold bind. destruct (log env _ w); reflexivity.
Qed.

End LoggerGoDispatch.

(** ** logger.go: the same properties, and where the revision differs *)

Section LoggerGoClaims.
Import LoggerGo.
Variable env : Env.

Lemma go_emitter_run (sev : severity) (f : emitter) (tags : list string)
    (message : string) (data : Value) (w : World) (l : logger) :
  In (sev, f) (go_emitters env) ->
  logr w = Some l ->
  f tags message data w =
    (log env (mkEntry sev (System (options l) :: tags) message data) ;; ret tt) w.
Proof.
  intros Hin Hl. unfold go_emitters in Hin.
  repeat (destruct Hin as [Hin | Hin];
          [injection Hin as <- <-;
           unfold Critical, Debug, Error, Info, Warning;
           unfold bind at 1; rewrite (go_newEntry_run _ _ _ _ w l Hl); reflexivity|]).
  destruct Hin.
Qed.

Lemma go_emitter_nil (sev : severity) (f : emitter) (tags : list string)
    (message : string) (data : Value) (w : World) :
  In (sev, f) (go_emitters env) ->
  logr w = None ->
  f tags message data w =
    Exited 1 (mkWorld None (stdout w) (stderr w ++ [notInstantiated]) (sent w)).
Proof.
  intros Hin Hl. unfold go_emitters in Hin.
  repeat (destruct Hin as [Hin | Hin];
          [injection Hin as <- <-;
           unfold Critical, Debug, Error, Info, Warning;
           unfold bind at 1; rewrite (go_newEntry_nil _ _ _ _ w Hl); reflexivity|]).
  destruct Hin.
Qed.

Lemma go_Fatal_run (tags : list string) (message : string) (data : Value)
    (w : World) (l : logger) :
  logr w = Some l ->
  Fatal env tags message data w =
    (let e := mkEntry criticalSeverity (System (options l) :: tags) message data in
     err <- log env e ;;
     (if isErr err then ret tt
      else
        l' <- deref_logr ;;
        if negb (Local (options l')) then writeLocalLog env e else ret tt) ;;
     os_Exit 1) w.
Proof.
  intros Hl. unfold Fatal. unfold bind at 1.
  rewrite (go_newEntry_run _ _ _ _ w l Hl). reflexivity.
Qed.

(** The record every emitter of src/logger.go builds carries the system
    name, then the caller's tags. *)
Lemma go_emitted_tags_prepend_system (tags : list string) (message : string)
    (data : Value) (w : World) (l : logger) (S : string) :
  logr w = Some l ->
  System (options l) = S ->
  (forall sev,
      exists e, newEntry sev tags message data w = Returned e w
                /\ Tags e = S :: tags /\ Severity e = sev
                /\ Message e = message /\ Data e = data) /\
  (forall sev f,
      In (sev, f) (go_emitters env) ->
      f tags message data w =
        (log env (mkEntry sev (S :: tags) message data) ;; ret tt) w) /\
  Fatal env tags message data w =
    (let e := mkEntry criticalSeverity (S :: tags) message data in
     err <- log env e ;;
     (if isErr err then ret tt
      else
        l' <- deref_logr ;;
        if negb (Local (options l')) then writeLocalLog env e else ret tt) ;;
     os_Exit 1) w.
Proof.
  intros Hl <-. repeat split.
  - intros sev. eexists. rewrite (go_newEntry_run _ _ _ _ w l Hl).
    repeat split; reflexivity.
  - intros sev f Hin. apply (go_emitter_run sev f); assumption.
  - apply go_Fatal_run. exact Hl.
Qed.

(** Before [Init], every emitter of src/logger.go ends the process through
    [log.Fatal]. *)
Lemma go_emitter_before_Init_halts (tags : list string) (message : string)
    (data : Value) (w : World) :
  logr w = None ->
  let halted :=
    Exited 1 (mkWorld None (stdout w) (stderr w ++ [notInstantiated]) (sent w)) in
  (forall sev f, In (sev, f) (go_emitters env) -> f tags message data w = halted) /\
  Fatal env tags message data w = halted.
Proof.
  intros Hl. split.
  - intros sev f Hin. apply (go_emitter_nil sev f); assumption.
  - unfold Fatal. unfold bind at 1. rewrite (go_newEntry_nil _ _ _ _ w Hl).
    reflexivity.
Qed.

(** [Init] of src/logger.go stores 10 for a timeout below 1 and any other
    timeout as it is. *)
Lemma go_Init_stores_default_timeout (o : Options) (w : World) :
  logr w = None ->
  exists w' o',
    Init env o w = Returned None w' /\
    logr w' = Some (mkLogger o') /\
    Host o' = Host o /\ System o' = System o /\ Token o' = Token o /\
    Local o' = Local o /\
    (Timeout o < 1 -> Timeout o' = 10) /\
    (1 <= Timeout o -> Timeout o' = Timeout o).
Proof.
  intros Hl. rewrite (go_Init_first env o w Hl).
  eexists. exists (stored o). split; [reflexivity|].
  split; [destruct (String.eqb (Host o) ""); reflexivity|].
  repeat (split; [reflexivity|]).
  unfold stored; cbn [Timeout]. split; intros Ht.
  - apply Z.ltb_lt in Ht. rewrite Ht. reflexivity.
  - destruct (Z.ltb_spec (Timeout o) 1); [lia | reflexivity].
Qed.

(** [Init] of src/logger.go succeeds once; afterwards it is rejected,
    [logr] stays, and an ERROR record goes out under the first
    configuration. *)
Lemma go_Init_once_then_rejected (o1 o2 : Options) (w0 w : World) (l : logger) :
  logr w0 = None ->
  logr w = Some l ->
  (exists w1, Init env o1 w0 = Returned None w1
              /\ logr w1 = Some (mkLogger (stored o1))) /\
  (exists b r w2,
      Init env o2 w = Returned (errors_New alreadyInstantiated) w2
      /\ logr w2 = Some l
      /\ json_Marshal (rejectedInit l) = Some b
      /\ log env (rejectedInit l) w = Returned r w2
      /\ Severity (rejectedInit l) = errorSeverity
      /\ Tags (rejectedInit l) = [System (options l); "logging"]
      /\ (Host (options l) = "" ->
          sent w2 = sent w
          /\ stdout w2 = (stdout w ++ [lineAt env w (rejectedInit l)])%list)
      /\ (Host (options l) <> "" ->
          sent w2 = (sent w ++ [newRequest (options l) b])%list)).
Proof.
  intros H0 Hl. split.
  - rewrite (go_Init_first env o1 w0 H0). eexists. split; [reflexivity|].
    destruct (String.eqb (Host o1) ""); reflexivity.
  - pose proof (encodable_json_Marshal (rejectedInit l) JNull eq_refl) as Hb.
    rewrite (go_Init_again env o2 w l Hl). unfold bind.
    rewrite (go_log_run env _ _ w l Hb Hl).
    eexists.
    destruct (String.eqb_spec (Host (options l)) "") as [Hh | Hh].
    + do 2 eexists. repeat (split; [reflexivity || exact Hl || exact Hb|]).
      split; [intros _; split; reflexivity | congruence].
    + cbv zeta. destruct (DoTimeout env _ _ _); [|destruct (Local (options l))];
        do 2 eexists;
        (repeat (split; [reflexivity || exact Hl || exact Hb|]));
        (split; [congruence | intros _; reflexivity]).
Qed.

(** After a successful round trip src/logger.go prints the record once if
    [Local] is set and not at all otherwise. *)
Lemma go_delivered_local_copy_iff_Local (sev : severity) (f : emitter)
    (tags : list string) (message : string) (data : Value) (d : JSON)
    (w : World) (l : logger) :
  In (sev, f) (go_emitters env) ->
  logr w = Some l ->
  Host (options l) <> "" ->
  encodeValue data = Some d ->
  let e := mkEntry sev (System (options l) :: tags) message data in
  let req := newRequest (options l) (entryJSON e d) in
  DoTimeout env (length (sent w)) req (duration (Timeout (options l))) = None ->
  exists w',
    f tags message data w = Returned tt w'
    /\ log env e w = Returned None w'
    /\ sent w' = (sent w ++ [req])%list
    /\ stdout w' =
         (stdout w ++ (if Local (options l) then [lineAt env w e] else []))%list.
Proof.
  intros Hin Hl Hh Hd e req Hnet.
  rewrite (go_emitter_run sev f tags message data w l Hin Hl). unfold bind.
  fold e.
  rewrite (go_log_run env e _ w l (encodable_json_Marshal e d Hd) Hl).
  rewrite (eqb_empty_false _ Hh). cbv zeta.
  fold req. rewrite Hnet.
  eexists. split; [reflexivity|]. split; [reflexivity|].
  destruct (Local (options l)); split; cbn [sent stdout printed posted];
    try reflexivity.
  symmetry. apply app_nil_r.
Qed.

(** In src/logger.go a failed round trip leaves one line only: the
    record itself is printed once, and no WARNING about the transport
    error is written, [postLog] of this revision having none. *)
Lemma go_failed_delivery_no_warning (sev : severity) (f : emitter)
    (tags : list string) (message : string) (data : Value) (d : JSON)
    (m : string) (w : World) (l : logger) :
  In (sev, f) (go_emitters env) ->
  logr w = Some l ->
  Host (options l) <> "" ->
  encodeValue data = Some d ->
  let e := mkEntry sev (System (options l) :: tags) message data in
  DoTimeout env (length (sent w)) (newRequest (options l) (entryJSON e d))
            (duration (Timeout (options l))) = Some m ->
  exists w',
    f tags message data w = Returned tt w'
    /\ log env e w = Returned (Some m) w'
    /\ sent w' = (sent w ++ [newRequest (options l) (entryJSON e d)])%list
    /\ stdout w' = (stdout w ++ [lineAt env w e])%list.
Proof.
  intros Hin Hl Hh Hd e Hnet.
  rewrite (go_emitter_run sev f tags message data w l Hin Hl). unfold bind.
  fold e.
  rewrite (go_log_run env e _ w l (encodable_json_Marshal e d Hd) Hl).
  rewrite (eqb_empty_false _ Hh). cbv zeta. rewrite Hnet.
  eexists. repeat split; reflexivity.
Qed.

(** A record that does not serialise is printed and reported by
    src/logger.go as well, and never posted. *)
Lemma go_unencodable_record_local_and_reported (e : logEntry) (w : World)
    (l : logger) :
  logr w = Some l ->
  encodeValue (Data e) = None ->
  let e2 := secondaryError l in
  let w1 := printed (lineAt env w e) w in
  exists r w2 rest,
    log env e w = Returned None w2
    /\ log env e2 w1 = Returned r w2
    /\ Severity e2 = errorSeverity
    /\ Tags e2 = [System (options l); "logging"]
    /\ Message e2 = notEncodable
    /\ stdout w2 = (stdout w ++ lineAt env w e :: rest)%list
    /\ sent w2 =
         (sent w ++ (if String.eqb (Host (options l)) "" then []
                     else [newRequest (options l) (entryJSON e2 (JString ""))]))%list
    /\ logr w2 = Some l.
Proof.
  intros Hl Hd e2 w1.
  rewrite (go_log_unencodable env e w l (proj2 (json_Marshal_None e) Hd) Hl).
  destruct (go_log_run_facts env e2 _ w1 l (secondary_json_Marshal l) Hl)
    as (r & w2 & lines & Hrun & Hl2 & Hsent & Hout & _).
  exists r, w2, lines. unfold bind. fold w1 e2. rewrite Hrun.
  split; [reflexivity|]. split; [reflexivity|].
  do 3 (split; [reflexivity|]).
  split; [|split; [exact Hsent | exact Hl2]].
  rewrite Hout. unfold w1. cbn [stdout printed].
  rewrite <- app_assoc. reflexivity.
Qed.

(** [Fatal] of src/logger.go prints an unencodable CRITICAL record twice
    when [Local] is false. *)
Lemma go_Fatal_unencodable_printed_twice (tags : list string)
    (message : string) (data : Value) (w : World) (l : logger) :
  logr w = Some l ->
  Local (options l) = false ->
  encodeValue data = None ->
  let e := mkEntry criticalSeverity (System (options l) :: tags) message data in
  exists w2 mid,
    log env e w = Returned None w2
    /\ stdout w2 = (stdout w ++ lineAt env w e :: mid)%list
    /\ Fatal env tags message data w = Exited 1 (printed (lineAt env w2 e) w2)
    /\ stdout (printed (lineAt env w2 e) w2) =
         (stdout w ++ lineAt env w e :: mid ++ [lineAt env w2 e])%list.
Proof.
  intros Hl Hloc Hd e.
  assert (Hn : json_Marshal e = None) by (apply json_Marshal_None; exact Hd).
  destruct (go_log_run_facts env (secondaryError l) _ (printed (lineAt env w e) w)
              l (secondary_json_Marshal l) Hl)
    as (r & w2 & lines & Hrun & Hl2 & Hsent & Hout & _).
  assert (Hlog : log env e w = Returned None w2).
  { rewrite (go_log_unencodable env e w l Hn Hl). unfold bind. rewrite Hrun.
    reflexivity. }
  assert (Hout2 : stdout w2 = (stdout w ++ lineAt env w e :: lines)%list).
  { rewrite Hout. cbn [stdout printed]. rewrite <- app_assoc. reflexivity. }
  exists w2, lines. split; [exact Hlog|]. split; [exact Hout2|]. split.
  - rewrite (go_Fatal_run tags message data w l Hl). cbv zeta. fold e.
    unfold bind at 1. rewrite Hlog. cbn [isErr].
    unfold bind, deref_logr. rewrite Hl2, Hloc. reflexivity.
  - cbn [stdout printed]. rewrite Hout2, <- app_assoc. reflexivity.
Qed.

(** [Fatal] of src/logger.go exits with status 1 after at least one local
    line for its record. *)
Lemma go_Fatal_prints_then_exits (tags : list string) (message : string)
    (data : Value) (w : World) (l : logger) :
  logr w = Some l ->
  let e := mkEntry criticalSeverity (System (options l) :: tags) message data in
  (exists w' pre ts post,
      Fatal env tags message data w = Exited 1 w'
      /\ 1 <> 0
      /\ stdout w' = (stdout w ++ pre ++ formatLine ts e :: post)%list) /\
  (forall w2,
      log env e w = Returned None w2 ->
      Local (options l) = false ->
      Fatal env tags message data w = Exited 1 (printed (lineAt env w2 e) w2)) /\
  (forall d,
      encodeValue data = Some d ->
      Host (options l) <> "" ->
      Local (options l) = false ->
      let req := newRequest (options l) (entryJSON e d) in
      DoTimeout env (length (sent w)) req (duration (Timeout (options l))) = None ->
      log env e w = Returned None (posted req w)
      /\ stdout (posted req w) = stdout w
      /\ Fatal env tags message data w =
           Exited 1 (printed (lineAt env w e) (posted req w))).
Proof.
  intros Hl e. split; [|split].
  - rewrite (go_Fatal_run tags message data w l Hl). cbv zeta. fold e.
    destruct (encodeValue data) as [d|] eqn:Hd.
    + unfold bind at 1.
      rewrite (go_log_run env e _ w l (encodable_json_Marshal e d Hd) Hl).
      destruct (String.eqb (Host (options l)) "").
      * exists (printed (lineAt env w e) w), [], (time_Now_Format env (length (stdout w))), [].
        split; [reflexivity|]. split; [lia | reflexivity].
      * cbv zeta. destruct (DoTimeout env _ _ _) as [m|].
        -- eexists. exists []. eexists. exists [].
           split; [reflexivity|]. split; [lia|]. reflexivity.
        -- cbn [isErr]. unfold bind, deref_logr.
           destruct (Local (options l)) eqn:Hloc;
             [change (logr (printed (lineAt env w e) (posted (newRequest (options l) (entryJSON e d)) w))) with (logr w)
             |change (logr (posted (newRequest (options l) (entryJSON e d)) w)) with (logr w)];
             rewrite Hl, Hloc; cbn [negb ret];
             eexists; exists []; eexists; exists [];
             (split; [reflexivity|]); (split; [lia|]); reflexivity.
    + assert (Hn : json_Marshal e = None) by (apply json_Marshal_None; exact Hd).
      destruct (go_log_run_facts env (secondaryError l) _
                  (printed (lineAt env w e) w) l (secondary_json_Marshal l) Hl)
        as (r & w2 & lines & Hrun & Hl2 & Hsent & Hout & _).
      unfold bind at 1. rewrite (go_log_unencodable env e w l Hn Hl).
      unfold bind. rewrite Hrun. cbn [ret isErr].
      unfold deref_logr. rewrite Hl2.
      destruct (negb (Local (options l)));
        eexists; exists []; eexists; eexists;
        (split; [reflexivity|]); (split; [lia|]);
        cbn [stdout printed]; rewrite Hout; cbn [stdout printed];
        rewrite <- !app_assoc; reflexivity.
  - intros w2 Hlog Hloc.
    destruct (go_log_returns env e w l Hl) as (r & w' & lines & Hrun & Hl2 & _).
    rewrite Hlog in Hrun. injection Hrun as _ <-.
    rewrite (go_Fatal_run tags message data w l Hl). cbv zeta. fold e.
    unfold bind at 1. rewrite Hlog. cbn [isErr].
    unfold bind, deref_logr. rewrite Hl2, Hloc. reflexivity.
  - intros d Hd Hh Hloc req Hnet.
    assert (Hlog : log env e w = Returned None (posted req w)).
    { rewrite (go_log_run env e _ w l (encodable_json_Marshal e d Hd) Hl).
      rewrite (eqb_empty_false _ Hh). cbv zeta. fold req.
      rewrite Hnet, Hloc. reflexivity. }
    split; [exact Hlog|]. split; [reflexivity|].
    rewrite (go_Fatal_run tags message data w l Hl). cbv zeta. fold e.
    unfold bind at 1. rewrite Hlog. cbn [isErr].
    unfold bind, deref_logr. change (logr (posted req w)) with (logr w).
    rewrite Hl, Hloc. reflexivity.
Qed.

(** In src/logger.go an empty host keeps everything local in the same
    way, but a first [Init] prints nothing: this revision has no start-up
    warning. *)
Lemma go_empty_host_no_startup_warning (o : Options) (w0 w : World) (l : logger) :
  logr w0 = None ->
  Host o = "" ->
  logr w = Some l ->
  Host (options l) = "" ->
  (exists w1,
      Init env o w0 = Returned None w1
      /\ sent w1 = sent w0
      /\ stdout w1 = stdout w0) /\
  (forall b, postLog env b w = Returned (errors_New hostNotSet) w) /\
  (forall sev f tags message data,
      In (sev, f) (go_emitters env) ->
      let e := mkEntry sev (System (options l) :: tags) message data in
      let w1 := printed (lineAt env w e) w in
      exists w',
        f tags message data w = Returned tt w'
        /\ sent w' = sent w
        /\ stdout w' =
             (stdout w ++ lineAt env w e ::
                match encodeValue data with
                | Some _ => []
                | None => [lineAt env w1 (secondaryError l)]
                end)%list) /\
  (forall tags message data,
      let e := mkEntry criticalSeverity (System (options l) :: tags) message data in
      exists w' rest,
        Fatal env tags message data w = Exited 1 w'
        /\ sent w' = sent w
        /\ stdout w' = (stdout w ++ lineAt env w e :: rest)%list).
Proof.
  intros H0 Ho Hl Hh.
  assert (Hsec : forall w1, logr w1 = Some l ->
            log env (secondaryError l) w1 =
              Returned (errors_New hostNotSet)
                       (printed (lineAt env w1 (secondaryError l)) w1)).
  { intros w1 Hl1.
    rewrite (go_log_run env _ _ w1 l (secondary_json_Marshal l) Hl1).
    rewrite Hh. reflexivity. }
  split; [|split; [|split]].
  - rewrite (go_Init_first env o w0 H0).
    eexists. split; [reflexivity|]. split; reflexivity.
  - intros b. rewrite (go_postLog_run env b w l Hl). rewrite Hh. reflexivity.
  - intros sev f tags message data Hin e w1.
    rewrite (go_emitter_run sev f tags message data w l Hin Hl). fold e.
    unfold bind. destruct (encodeValue data) as [d|] eqn:Hd.
    + rewrite (go_log_run env e _ w l (encodable_json_Marshal e d Hd) Hl).
      rewrite Hh. cbn [String.eqb]. eexists. split; [reflexivity|].
      split; reflexivity.
    + rewrite (go_log_unencodable env e w l (proj2 (json_Marshal_None e) Hd) Hl).
      unfold bind. fold w1. rewrite (Hsec w1 Hl). eexists.
      split; [reflexivity|]. split; [reflexivity|].
      cbn [stdout printed]. unfold w1. cbn [stdout printed].
      rewrite <- app_assoc. reflexivity.
  - intros tags message data e.
    rewrite (go_Fatal_run tags message data w l Hl). cbv zeta. fold e.
    unfold bind at 1. destruct (encodeValue data) as [d|] eqn:Hd.
    + rewrite (go_log_run env e _ w l (encodable_json_Marshal e d Hd) Hl).
      rewrite Hh. cbn [String.eqb]. eexists. exists [].
      split; [reflexivity|]. split; reflexivity.
    + rewrite (go_log_unencodable env e w l (proj2 (json_Marshal_None e) Hd) Hl).
      unfold bind. rewrite (Hsec (printed (lineAt env w e) w) Hl). cbn [ret isErr].
      unfold deref_logr.
      change (logr (printed _ (printed _ w))) with (logr w). rewrite Hl.
      destruct (negb (Local (options l))); eexists; eexists;
        (split; [reflexivity|]); (split; [reflexivity|]);
        cbn [stdout printed]; rewrite <- !app_assoc; reflexivity.
Qed.

End LoggerGoClaims.

(** * Further properties of part_000 *)

Section Part000Frame.
Import Part000.
Variable env : Env.

Ltac frame_world Hl :=
  unfold printed, posted; cbn [logr stdout stderr sent];
  rewrite ?Hl, <- ?app_assoc, ?app_nil_r; reflexivity.

Lemma log_frame_encodable (e : logEntry) (b : JSON) (w : World) (l : logger) :
  json_Marshal e = Some b ->
  logr w = Some l ->
  exists r w', log env e w = Returned r w' /\ extends l w w'.
Proof.
  intros Hb Hl. rewrite (log_run env e b w l Hb Hl).
  destruct (String.eqb_spec (Host (options l)) "") as [Hh | Hh].
  - do 2 eexists. split; [reflexivity|].
    exists [lineAt env w e], []. split; [frame_world Hl | left; reflexivity].
  - cbv zeta. destruct (DoTimeout env _ _ _) as [m|].
    + do 2 eexists. split; [reflexivity|].
      eexists [lineAt env w (transportWarning l m); _], [_].
      split; [frame_world Hl | right; split; [exact Hh | eexists; reflexivity]].
    + destruct (Local (options l)); do 2 eexists; (split; [reflexivity|]).
      * exists [lineAt env w e]. eexists [_].
        split; [frame_world Hl | right; split; [exact Hh | eexists; reflexivity]].
      * exists []. eexists [_].
        split; [frame_world Hl | right; split; [exact Hh | eexists; reflexivity]].
Qed.

Lemma log_frame (e : logEntry) (w : World) (l : logger) :
  logr w = Some l ->
  exists r w', log env e w = Returned r w' /\ extends l w w'.
Proof.
  intros Hl. destruct (json_Marshal e) as [b|] eqn:Hm.
  - exact (log_frame_encodable e b w l Hm Hl).
  - destruct (log_frame_encodable (secondaryError l) _
                (printed (lineAt env w e) w) l (secondary_json_Marshal l) Hl)
      as (r & w' & Hrun & lines & reqs & Hw' & Hreqs).
    exists None, w'. rewrite (log_unencodable env e w l Hm Hl).
    unfold bind. rewrite Hrun. split; [reflexivity|].
    exists (lineAt env w e :: lines), reqs. split; [|exact Hreqs].
    rewrite Hw'. cbn [stdout stderr sent printed].
    rewrite <- app_assoc. reflexivity.
Qed.

Lemma extends_logr (l : logger) (w w' : World) :
  extends l w w' -> logr w' = Some l.
Proof. intros (lines & reqs & -> & _). reflexivity. Qed.

Lemma emitter_frame (sev : severity) (f : emitter) (tags : list string)
    (message : string) (data : Value) (w : World) (l : logger) :
  In (sev, f) (emitters env) ->
  logr w = Some l ->
  exists w', f tags message data w = Returned tt w' /\ extends l w w'.
Proof.
  intros Hin Hl.
  rewrite (emitter_run env sev f tags message data w l Hin Hl).
  destruct (log_frame (mkEntry sev (System (options l) :: tags) message data)
              w l Hl) as (r & w' & Hrun & Hext).
  exists w'. unfold bind. rewrite Hrun. split; [reflexivity | exact Hext].
Qed.

Lemma Fatal_frame (tags : list string) (message : string) (data : Value)
    (w : World) (l : logger) :
  logr w = Some l ->
  exists w', Fatal env tags message data w = Exited 1 w' /\ extends l w w'.
Proof.
  intros Hl. rewrite (Fatal_run env tags message data w l Hl). cbv zeta.
  set (e := mkEntry criticalSeverity (System (options l) :: tags) message data).
  destruct (log_frame e w l Hl) as (r & w1 & Hrun & Hext).
  unfold bind at 1. rewrite Hrun.
  destruct r as [m|]; cbn [isErr].
  - exists w1. split; [reflexivity | exact Hext].
  - unfold bind, deref_logr. rewrite (extends_logr l w w1 Hext).
    destruct (Local (options l)); cbn [negb].
    + exists w1. split; [reflexivity | exact Hext].
    + eexists. split; [reflexivity|].
      destruct Hext as (lines & reqs & Hw1 & Hreqs).
      exists (lines ++ [lineAt env w1 e])%list, reqs. split; [|exact Hreqs].
      rewrite Hw1 at 2. unfold printed. cbn [logr stdout stderr sent].
      rewrite <- app_assoc. reflexivity.
Qed.

Lemma Init_frame (o : Options) (w : World) (l : logger) :
  logr w = Some l ->
  exists w',
    Init env o w = Returned (errors_New alreadyInstantiated) w'
    /\ extends l w w'.
Proof.
  intros Hl. rewrite (Init_again env o w l Hl).
  destruct (log_frame (rejectedInit l) w l Hl) as (r & w' & Hrun & Hext).
  exists w'. unfold bind. rewrite Hrun. split; [reflexivity | exact Hext].
Qed.

(** X1. In a configured process each of the five returning emitters
    returns to its caller, whatever the payload and the network do: it
    neither exits nor panics, it leaves [logr] and standard error alone,
    only appends to standard output, and hands at most one request to the
    HTTP client, prepared from the configuration, and none at all when
    the host is empty. *)
Theorem emitter_returns_within_frame (sev : severity) (f : emitter)
    (tags : list string) (message : string) (data : Value) (w : World)
    (l : logger) :
  In (sev, f) (emitters env) ->
  logr w = Some l ->
  exists w' lines reqs,
    f tags message data w = Returned tt w'
    /\ logr w' = Some l
    /\ stderr w' = stderr w
    /\ stdout w' = (stdout w ++ lines)%list
    /\ sent w' = (sent w ++ reqs)%list
    /\ (length reqs <= 1)%nat
    /\ (Host (options l) = "" -> reqs = [])
    /\ (forall req, In req reqs -> exists b, req = newRequest (options l) b).
Proof.
  intros Hin Hl.
  destruct (emitter_frame sev f tags message data w l Hin Hl)
    as (w' & Hrun & lines & reqs & -> & Hreqs).
  eexists. exists lines, reqs. split; [exact Hrun|].
  do 4 (split; [reflexivity|]).
  destruct Hreqs as [-> | (Hh & b & ->)].
  - split; [cbn; lia|]. split; [reflexivity|]. intros req [].
  - split; [cbn; lia|]. split; [intros He; contradiction|].
    intros req [<- | []]. exists b. reflexivity.
Qed.

(** X2. [Fatal] never returns and never panics: in every world it ends
    the process with status 1.  Before [Init] nothing is printed or sent;
    in a configured process [logr] and standard error stay as they were
    and at most one request goes out. *)
Theorem Fatal_always_exits (tags : list string) (message : string)
    (data : Value) (w : World) :
  exists w',
    Fatal env tags message data w = Exited 1 w'
    /\ logr w' = logr w
    /\ (logr w = None -> stdout w' = stdout w /\ sent w' = sent w)
    /\ (forall l, logr w = Some l ->
          stderr w' = stderr w
          /\ exists lines reqs,
               stdout w' = (stdout w ++ lines)%list
               /\ sent w' = (sent w ++ reqs)%list
               /\ (length reqs <= 1)%nat).
Proof.
  destruct (logr w) as [l|] eqn:Hl.
  - destruct (Fatal_frame tags message data w l Hl)
      as (w' & Hrun & lines & reqs & -> & Hreqs).
    eexists. split; [exact Hrun|]. split; [reflexivity|].
    split; [discriminate|]. intros l' [= <-]. split; [reflexivity|].
    exists lines, reqs. do 2 (split; [reflexivity|]).
    destruct Hreqs as [-> | (_ & b & ->)]; cbn; lia.
  - eexists. split.
    + unfold Fatal. unfold bind at 1. rewrite (newEntry_nil _ _ _ _ w Hl).
      reflexivity.
    + cbn [logr stdout sent]. split; [reflexivity|].
      split; [intros _; split; reflexivity | discriminate].
Qed.

(** X3. [Init] always returns: with nil exactly when the process was not
    initialised, in which case [logr] then holds the configuration with
    its timeout default applied, and with the already-instantiated error
    otherwise, in which case [logr] is as before. *)
Theorem Init_returns_nil_iff_first (o : Options) (w : World) :
  exists r w',
    Init env o w = Returned r w'
    /\ (r = None <-> logr w = None)
    /\ (logr w = None -> logr w' = Some (mkLogger (stored o)))
    /\ (forall l, logr w = Some l ->
          r = errors_New alreadyInstantiated /\ logr w' = Some l).
Proof.
  destruct (logr w) as [l|] eqn:Hl.
  - destruct (Init_frame o w l Hl) as (w' & Hrun & Hext).
    exists (errors_New alreadyInstantiated), w'. split; [exact Hrun|].
    split; [split; discriminate|]. split; [discriminate|].
    intros l' [= <-]. split; [reflexivity | exact (extends_logr l w w' Hext)].
  - rewrite (Init_first env o w Hl). do 2 eexists. split; [reflexivity|].
    split; [split; reflexivity|].
    split; [intros _; destruct (String.eqb (Host o) ""); reflexivity|].
    discriminate.
Qed.

End Part000Frame.

(** ** Sequences of calls *)

Section Part000Callers.
Import Part000.
Variable env : Env.

Lemma exec_frame (c : call) (w : World) (l : logger) :
  logr w = Some l ->
  exists w',
    (exec env c w = Returned tt w' \/ exec env c w = Exited 1 w')
    /\ extends l w w'.
Proof.
  intros Hl.
  assert (Hemit : forall sev f tags message data,
             In (sev, f) (emitters env) ->
             exists w',
               (f tags message data w = Returned tt w'
                \/ f tags message data w = Exited 1 w')
               /\ extends l w w').
  { intros sev f tags message data Hin.
    destruct (emitter_frame env sev f tags message data w l Hin Hl)
      as (w' & Hrun & Hext).
    exists w'. split; [left; exact Hrun | exact Hext]. }
  destruct c as [o | tags message data | tags message data | tags message data
                 | tags message data | tags message data | tags message data];
    cbn [exec].
  - destruct (Init_frame env o w l Hl) as (w' & Hrun & Hext).
    exists w'. split; [left | exact Hext]. unfold bind. rewrite Hrun.
    reflexivity.
  - apply (Hemit criticalSeverity). left. reflexivity.
  - apply (Hemit debugSeverity). right. left. reflexivity.
  - apply (Hemit errorSeverity). do 2 right. left. reflexivity.
  - destruct (Fatal_frame env tags message data w l Hl) as (w' & Hrun & Hext).
    exists w'. split; [right; exact Hrun | exact Hext].
  - apply (Hemit infoSeverity). do 3 right. left. reflexivity.
  - apply (Hemit warningSeverity). do 4 right. left. reflexivity.
Qed.

Lemma exec_uninitialised (c : call) (w : World) :
  logr w = None ->
  match c with
  | CallInit o =>
      exists w', exec env c w = Returned tt w'
                 /\ logr w' = Some (mkLogger (stored o))
                 /\ stderr w' = stderr w /\ sent w' = sent w
  | _ =>
      exec env c w =
        Exited 1 (mkWorld None (stdout w) (stderr w ++ [notInstantiated]) (sent w))
  end.
Proof.
  intros Hl.
  assert (Hemit : forall sev f tags message data,
             In (sev, f) (emitters env) ->
             f tags message data w =
               Exited 1 (mkWorld None (stdout w) (stderr w ++ [notInstantiated])
                                 (sent w))).
  { intros sev f tags message data Hin.
    exact (emitter_nil env sev f tags message data w Hin Hl). }
  destruct c as [o | tags message data | tags message data | tags message data
                 | tags message data | tags message data | tags message data];
    cbn [exec].
  - unfold bind. rewrite (Init_first env o w Hl). eexists.
    split; [reflexivity|].
    destruct (String.eqb (Host o) ""); repeat split; reflexivity.
  - apply (Hemit criticalSeverity). left. reflexivity.
  - apply (Hemit debugSeverity). right. left. reflexivity.
  - apply (Hemit errorSeverity). do 2 right. left. reflexivity.
  - unfold Fatal. unfold bind at 1. rewrite (newEntry_nil _ _ _ _ w Hl).
    reflexivity.
  - apply (Hemit infoSeverity). do 3 right. left. reflexivity.
  - apply (Hemit warningSeverity). do 4 right. left. reflexivity.
Qed.

Lemma configured_extends (l : logger) (w w' : World) :
  logr w = Some l -> configured w -> extends l w w' -> configured w'.
Proof.
  intros Hl (l0 & Hl0 & Herr & Hsent) (lines & reqs & -> & Hreqs).
  rewrite Hl in Hl0. injection Hl0 as <-.
  exists l. cbn [logr stderr sent]. split; [reflexivity|].
  split; [exact Herr|]. intros req Hin. apply in_app_or in Hin.
  destruct Hin as [Hin | Hin]; [exact (Hsent req Hin)|].
  destruct Hreqs as [-> | (Hh & b & ->)]; [destruct Hin|].
  destruct Hin as [<- | []]. split; [exact Hh | exists b; reflexivity].
Qed.

Lemma run_safe_from (cs : list call) :
  forall w, w = initialWorld \/ configured w -> safeOutcome (run env cs w).
Proof.
  induction cs as [|c rest IH]; intros w Hw.
  - exact Hw.
  - cbn [run]. unfold bind. destruct Hw as [-> | Hc].
    + pose proof (exec_uninitialised c initialWorld eq_refl) as Hx.
      destruct c; try (rewrite Hx; split; [reflexivity | left; reflexivity]).
      destruct Hx as (w' & -> & Hl' & Herr & Hsent). apply IH. right.
      exists (mkLogger (stored o)). split; [exact Hl'|].
      split; [exact Herr|]. rewrite Hsent. intros req [].
    + destruct Hc as (l & Hl & Hrest).
      assert (Hc : configured w) by (exists l; split; assumption).
      destruct (exec_frame c w l Hl) as (w' & [-> | ->] & Hext).
      * apply IH. right. exact (configured_extends l w w' Hl Hc Hext).
      * split; [reflexivity|]. right.
        exact (configured_extends l w w' Hl Hc Hext).
Qed.

Lemma run_keeps_logr (cs : list call) :
  forall w l, logr w = Some l -> logr (worldOf (run env cs w)) = Some l.
Proof.
  induction cs as [|c rest IH]; intros w l Hl.
  - exact Hl.
  - cbn [run]. unfold bind.
    destruct (exec_frame c w l Hl) as (w' & [-> | ->] & Hext).
    + apply IH. exact (extends_logr l w w' Hext).
    + exact (extends_logr l w w' Hext).
Qed.

(** X4. Whatever exported functions a caller invokes, in whatever order,
    from process start: no call panics on the nil [logr]; the only exit
    status is 1; a process that was never initialised has printed and
    sent nothing; and in a configured process standard error is empty and
    every request handed to the HTTP client was prepared by [postLog]
    from the configuration in force, whose host is not empty. *)
Theorem call_sequences_are_safe (cs : list call) :
  safeOutcome (run env cs initialWorld).
Proof. apply run_safe_from. left. reflexivity. Qed.

(** X5. The first [Init] wins: once a caller has started with [Init o],
    no later call, a second [Init] included, changes the configuration;
    however the program ends, [logr] holds [o] with the timeout default
    applied. *)
Theorem first_Init_wins (o : Options) (cs : list call) :
  logr (worldOf (run env (CallInit o :: cs) initialWorld)) =
    Some (mkLogger (stored o)).
Proof.
  cbn [run]. unfold bind.
  destruct (exec_uninitialised (CallInit o) initialWorld eq_refl)
    as (w' & -> & Hl' & _).
  apply run_keeps_logr. exact Hl'.
Qed.

End Part000Callers.

(** ** Dispatch, case by case: what the local log shows *)

Section Part000Cases.
Import Part000.
Variable env : Env.

(** X6. With [Local] true a failed round trip does not print the record
    twice: the test [err != nil || logr.options.Local] of [log] writes it
    once, after the WARNING of [postLog]. *)
Theorem failed_delivery_with_Local_printed_once (sev : severity) (f : emitter)
    (tags : list string) (message : string) (data : Value) (d : JSON)
    (m : string) (w : World) (l : logger) :
  In (sev, f) (emitters env) ->
  logr w = Some l ->
  Host (options l) <> "" ->
  Local (options l) = true ->
  encodeValue data = Some d ->
  let e := mkEntry sev (System (options l) :: tags) message data in
  let req := newRequest (options l) (entryJSON e d) in
  DoTimeout env (length (sent w)) req (duration (Timeout (options l))) = Some m ->
  let w1 := printed (lineAt env w (transportWarning l m)) (posted req w) in
  f tags message data w = Returned tt (printed (lineAt env w1 e) w1)
  /\ stdout (printed (lineAt env w1 e) w1) =
       (stdout w ++ [lineAt env w (transportWarning l m); lineAt env w1 e])%list.
Proof.
  intros Hin Hl Hh Hloc Hd e req Hnet w1.
  rewrite (emitter_run env sev f tags message data w l Hin Hl). unfold bind.
  fold e.
  rewrite (log_run env e _ w l (encodable_json_Marshal e d Hd) Hl).
  rewrite (eqb_empty_false _ Hh). cbv zeta. fold req. rewrite Hnet.
  split; [reflexivity|]. unfold w1. cbn [stdout printed posted].
  rewrite <- app_assoc. reflexivity.
Qed.

(** X7. When the payload serialises, [Fatal] prints the CRITICAL record
    exactly once, as the last line before the exit, whether the host is
    empty, the round trip fails or succeeds, and whatever [Local] is; the
    only line that can precede it is the transport WARNING. *)
Theorem Fatal_encodable_printed_once (tags : list string) (message : string)
    (data : Value) (d : JSON) (w : World) (l : logger) :
  logr w = Some l ->
  encodeValue data = Some d ->
  let e := mkEntry criticalSeverity (System (options l) :: tags) message data in
  exists w' pre ts,
    Fatal env tags message data w = Exited 1 w'
    /\ stdout w' = (stdout w ++ pre ++ [formatLine ts e])%list
    /\ (pre = [] \/ exists m, pre = [lineAt env w (transportWarning l m)]).
Proof.
  intros Hl Hd e.
  rewrite (Fatal_run env tags message data w l Hl). cbv zeta. fold e.
  unfold bind at 1.
  rewrite (log_run env e _ w l (encodable_json_Marshal e d Hd) Hl).
  destruct (String.eqb (Host (options l)) "").
  - eexists. exists []. eexists. split; [reflexivity|].
    split; [reflexivity | left; reflexivity].
  - cbv zeta. destruct (DoTimeout env _ _ _) as [m|].
    + eexists. exists [lineAt env w (transportWarning l m)]. eexists.
      split; [reflexivity|]. split; [|right; exists m; reflexivity].
      cbn [stdout printed posted]. rewrite <- app_assoc. reflexivity.
    + cbn [isErr]. unfold bind, deref_logr.
      destruct (Local (options l)) eqn:Hloc.
      * change (logr (printed (lineAt env w e)
                        (posted (newRequest (options l) (entryJSON e d)) w)))
          with (logr w).
        rewrite Hl, Hloc. eexists. exists []. eexists.
        split; [reflexivity|]. split; [reflexivity | left; reflexivity].
      * change (logr (posted (newRequest (options l) (entryJSON e d)) w))
          with (logr w).
        rewrite Hl, Hloc. eexists. exists []. eexists.
        split; [reflexivity|]. split; [reflexivity | left; reflexivity].
Qed.

(** X8. The report about an unencodable payload can be remote only: with
    a host, [Local] false and a successful round trip for the secondary
    ERROR record, standard output gains the original record's line and
    nothing else, and the one request sent carries the secondary record. *)
Theorem unencodable_report_remote_only (sev : severity) (f : emitter)
    (tags : list string) (message : string) (data : Value) (w : World)
    (l : logger) :
  In (sev, f) (emitters env) ->
  logr w = Some l ->
  Host (options l) <> "" ->
  Local (options l) = false ->
  encodeValue data = None ->
  let e := mkEntry sev (System (options l) :: tags) message data in
  let req :=
    newRequest (options l) (entryJSON (secondaryError l) (JString "")) in
  DoTimeout env (length (sent w)) req (duration (Timeout (options l))) = None ->
  exists w',
    f tags message data w = Returned tt w'
    /\ stdout w' = (stdout w ++ [lineAt env w e])%list
    /\ sent w' = (sent w ++ [req])%list.
Proof.
  intros Hin Hl Hh Hloc Hd e req Hnet.
  rewrite (emitter_run env sev f tags message data w l Hin Hl). unfold bind.
  fold e.
  rewrite (log_unencodable env e w l (proj2 (json_Marshal_None e) Hd) Hl).
  unfold bind.
  rewrite (log_run env (secondaryError l) _ (printed (lineAt env w e) w) l
             (secondary_json_Marshal l) Hl).
  rewrite (eqb_empty_false _ Hh). cbv zeta.
  change (sent (printed (lineAt env w e) w)) with (sent w).
  fold req. rewrite Hnet, Hloc.
  eexists. split; [reflexivity|]. split; reflexivity.
Qed.

(** X9. With [Local] true [Fatal] adds nothing of its own to the logs: it
    leaves exactly the world [Critical] leaves for the same arguments,
    and then exits instead of returning. *)
Theorem Fatal_is_Critical_then_exit (tags : list string) (message : string)
    (data : Value) (w : World) (l : logger) :
  logr w = Some l ->
  Local (options l) = true ->
  exists w',
    Critical env tags message data w = Returned tt w'
    /\ Fatal env tags message data w = Exited 1 w'.
Proof.
  intros Hl Hloc.
  set (e := mkEntry criticalSeverity (System (options l) :: tags) message data).
  destruct (log_returns env e w l Hl) as (r & w' & lines & Hrun & Hl' & _).
  exists w'. split.
  - unfold Critical. unfold bind at 1.
    rewrite (newEntry_run _ _ _ _ w l Hl). fold e. unfold bind.
    rewrite Hrun. reflexivity.
  - rewrite (Fatal_run env tags message data w l Hl). cbv zeta. fold e.
    unfold bind at 1. rewrite Hrun. destruct r; cbn [isErr]; [reflexivity|].
    unfold bind, deref_logr. rewrite Hl', Hloc. reflexivity.
Qed.

End Part000Cases.

(** ** The deadline of the round trip *)

Section Part000Deadline.
Import Part000.
Variable env : Env.

Lemma wrap64_small (z : Z) : - 2 ^ 63 <= z < 2 ^ 63 -> wrap64 z = z.
Proof. intros Hz. unfold wrap64. rewrite Z.mod_small; lia. Qed.

Lemma wrap64_above (z : Z) : 2 ^ 63 <= z < 2 ^ 64 -> wrap64 z = z - 2 ^ 64.
Proof.
  intros Hz. unfold wrap64.
  rewrite <- (Z.mod_unique (z + 2 ^ 63) (2 ^ 64) 1 (z + 2 ^ 63 - 2 ^ 64)); lia.
Qed.

(** X10. For a configured timeout between 1 and 9223372036 seconds the
    deadline [postLog] passes to [DoTimeout] is that many seconds in
    nanoseconds, a positive number: the product with [time.Second] does
    not leave the range of [int64]. *)
Theorem postLog_deadline_in_seconds (b : JSON) (w : World) (l : logger) :
  logr w = Some l ->
  Host (options l) <> "" ->
  1 <= Timeout (options l) <= 9223372036 ->
  let req := newRequest (options l) b in
  let deadline := Timeout (options l) * 1000000000 in
  0 < deadline
  /\ postLog env b w =
       match DoTimeout env (length (sent w)) req deadline with
       | None => Returned None (posted req w)
       | Some m =>
           Returned (Some m)
             (printed (lineAt env w (transportWarning l m)) (posted req w))
       end.
Proof.
  intros Hl Hh Ht req deadline. split; [unfold deadline; lia|].
  rewrite (postLog_run env b w l Hl), (eqb_empty_false _ Hh). cbv zeta.
  fold req. unfold duration, time_Second.
  rewrite (wrap64_small (Timeout (options l))) by lia.
  rewrite wrap64_small by lia. reflexivity.
Qed.

(** X11. A configured timeout from 9223372037 to 18446744073 seconds
    overflows [int64] in [time.Duration(timeout) * time.Second]:
    [postLog] then asks for a round trip with a negative deadline. *)
Theorem postLog_deadline_overflows (b : JSON) (w : World) (l : logger) :
  logr w = Some l ->
  Host (options l) <> "" ->
  9223372037 <= Timeout (options l) <= 18446744073 ->
  let req := newRequest (options l) b in
  let deadline := Timeout (options l) * 1000000000 - 2 ^ 64 in
  deadline < 0
  /\ postLog env b w =
       match DoTimeout env (length (sent w)) req deadline with
       | None => Returned None (posted req w)
       | Some m =>
           Returned (Some m)
             (printed (lineAt env w (transportWarning l m)) (posted req w))
       end.
Proof.
  intros Hl Hh Ht req deadline. split; [unfold deadline; lia|].
  rewrite (postLog_run env b w l Hl), (eqb_empty_false _ Hh). cbv zeta.
  fold req. unfold duration, time_Second.
  rewrite (wrap64_small (Timeout (options l))) by lia.
  rewrite wrap64_above by lia. reflexivity.
Qed.

End Part000Deadline.

(** ** The two revisions side by side *)

Section Revisions.
Variable env : Env.
Hypothesis quiet : neverFails env.

Lemma postLog_agree (b : JSON) (w : World) :
  Part000.postLog env b w = LoggerGo.postLog env b w.
Proof.
  unfold Part000.postLog, LoggerGo.postLog, bind, deref_logr.
  destruct (logr w) as [l|]; [|reflexivity].
  destruct (String.eqb (Host (options l)) ""); [reflexivity|].
  cbv zeta. unfold client_DoTimeout. rewrite quiet. reflexivity.
Qed.

Lemma log_agree_encodable (e : logEntry) (b : JSON) (w : World) :
  json_Marshal e = Some b ->
  Part000.log env e w = LoggerGo.log env e w.
Proof.
  intros Hb. rewrite (log_Some env e b w Hb), (go_log_Some env e b w Hb).
  unfold bind. rewrite postLog_agree.
  destruct (LoggerGo.postLog env b w); reflexivity.
Qed.

Lemma log_agree (e : logEntry) (w : World) :
  Part000.log env e w = LoggerGo.log env e w.
Proof.
  destruct (json_Marshal e) as [b|] eqn:Hm.
  - exact (log_agree_encodable e b w Hm).
  - rewrite (log_None env e w Hm), (go_log_None env e w Hm).
    unfold Part000.Error, LoggerGo.Error, Part000.newEntry, LoggerGo.newEntry,
      Part000.writeLocalLog, LoggerGo.writeLocalLog, fmt_Print, instantiated,
      bind, ret.
    cbv beta zeta. cbn [logr printed].
    destruct (logr w) as [l|]; [|reflexivity].
    pose proof (log_agree_encodable (secondaryError l) _
                  (printed (formatLine (time_Now_Format env (length (stdout w))) e) w)
                  (secondary_json_Marshal l)) as Hsec.
    unfold secondaryError in Hsec.
    change (Part000.logTags) with ["logging"].
    rewrite Hsec. reflexivity.
Qed.

(** X12. The two revisions differ only in the two warnings of part_000.
    On a network where no round trip fails, [log], the five emitters and
    [Fatal] of src/logger.go and of part_000 do the same in every world,
    and so does [Init] unless it is the first call with an empty host. *)
Theorem revisions_agree_without_failures :
  (forall e w, Part000.log env e w = LoggerGo.log env e w)
  /\ (forall tags message data w,
         Part000.Critical env tags message data w =
           LoggerGo.Critical env tags message data w
         /\ Part000.Debug env tags message data w =
              LoggerGo.Debug env tags message data w
         /\ Part000.Error env tags message data w =
              LoggerGo.Error env tags message data w
         /\ Part000.Info env tags message data w =
              LoggerGo.Info env tags message data w
         /\ Part000.Warning env tags message data w =
              LoggerGo.Warning env tags message data w
         /\ Part000.Fatal env tags message data w =
              LoggerGo.Fatal env tags message data w)
  /\ (forall o w,
         Host o <> "" \/ logr w <> None ->
         Part000.Init env o w = LoggerGo.Init env o w).
Proof.
  assert (Hemit : forall sev tags message data w,
             (e <- Part000.newEntry sev tags message data ;;
              Part000.log env e ;; ret tt) w =
             (e <- LoggerGo.newEntry sev tags message data ;;
              LoggerGo.log env e ;; ret tt) w).
  { intros sev tags message data w.
    unfold bind, Part000.newEntry, LoggerGo.newEntry, bind, instantiated.
    destruct (logr w); [|reflexivity].
    unfold ret at 1 3. rewrite log_agree. reflexivity. }
  split; [exact log_agree|]. split.
  - intros tags message data w.
    do 5 (split; [apply Hemit|]).
    unfold Part000.Fatal, LoggerGo.Fatal, Part000.newEntry, LoggerGo.newEntry,
      instantiated, bind.
    cbv beta. destruct (logr w); [|reflexivity].
    unfold ret at 1 4. rewrite log_agree. reflexivity.
  - intros o w Hcase. destruct (logr w) as [l|] eqn:Hl.
    + rewrite (Init_again env o w l Hl), (go_Init_again env o w l Hl).
      unfold bind. rewrite log_agree. reflexivity.
    + destruct Hcase as [Hh | Hn]; [|contradiction].
      rewrite (Init_first env o w Hl), (go_Init_first env o w Hl).
      rewrite (eqb_empty_false _ Hh). reflexivity.
Qed.

End Revisions.

(** ** No record is dropped *)

Section NeverLost.
Variable env : Env.

(** X13. In a configured process a record handed to an emitter of
    part_000 is never dropped silently: when the call returns, either
    its line has been printed on standard output, or its payload
    serialised and the one request carrying it ended without error. *)
Theorem record_never_lost (sev : severity) (f : emitter)
    (tags : list string) (message : string) (data : Value) (w : World)
    (l : logger) :
  In (sev, f) (emitters env) ->
  logr w = Some l ->
  let e := mkEntry sev (System (options l) :: tags) message data in
  exists w',
    f tags message data w = Returned tt w'
    /\ ((exists pre ts post,
            stdout w' = (stdout w ++ pre ++ formatLine ts e :: post)%list)
        \/ (exists d,
               encodeValue data = Some d
               /\ sent w' = (sent w ++ [newRequest (options l) (entryJSON e d)])%list
               /\ DoTimeout env (length (sent w))
                    (newRequest (options l) (entryJSON e d))
                    (duration (Timeout (options l))) = None)).
Proof.
  intros Hin Hl e.
  rewrite (emitter_run env sev f tags message data w l Hin Hl). fold e.
  unfold bind. destruct (encodeValue data) as [d|] eqn:Hd.
  - rewrite (log_run env e _ w l (encodable_json_Marshal e d Hd) Hl).
    destruct (String.eqb (Host (options l)) "").
    + eexists. split; [reflexivity|]. left. exists []. do 2 eexists.
      reflexivity.
    + cbv zeta.
      destruct (DoTimeout env _ _ _) as [m|] eqn:Hnet.
      * eexists. split; [reflexivity|]. left.
        exists [lineAt env w (transportWarning l m)]. do 2 eexists.
        cbn [stdout printed posted]. rewrite <- app_assoc. reflexivity.
      * destruct (Local (options l)); eexists; (split; [reflexivity|]).
        -- left. exists []. do 2 eexists. reflexivity.
        -- right. exists d. split; [reflexivity|].
           split; [reflexivity | exact Hnet].
  - rewrite (log_unencodable env e w l (proj2 (json_Marshal_None e) Hd) Hl).
    destruct (log_run_facts env (secondaryError l) _
                (printed (lineAt env w e) w) l (secondary_json_Marshal l) Hl)
      as (r & w2 & lines & Hrun & _ & _ & Hout & _).
    unfold bind. rewrite Hrun. eexists. split; [reflexivity|].
    left. exists [], (time_Now_Format env (length (stdout w))), lines.
    rewrite Hout. cbn [stdout printed]. rewrite <- app_assoc. reflexivity.
Qed.

(** X14. The same holds for the emitters of src/logger.go: a record is
    printed locally, or the request carrying it ended without error. *)
Theorem go_record_never_lost (sev : severity) (f : emitter)
    (tags : list string) (message : string) (data : Value) (w : World)
    (l : logger) :
  In (sev, f) (go_emitters env) ->
  logr w = Some l ->
  let e := mkEntry sev (System (options l) :: tags) message data in
  exists w',
    f tags message data w = Returned tt w'
    /\ ((exists pre ts post,
            stdout w' = (stdout w ++ pre ++ formatLine ts e :: post)%list)
        \/ (exists d,
               encodeValue data = Some d
               /\ sent w' = (sent w ++ [newRequest (options l) (entryJSON e d)])%list
               /\ DoTimeout env (length (sent w))
                    (newRequest (options l) (entryJSON e d))
                    (duration (Timeout (options l))) = None)).
Proof.
  intros Hin Hl e.
  rewrite (go_emitter_run env sev f tags message data w l Hin Hl). fold e.
  unfold bind. destruct (encodeValue data) as [d|] eqn:Hd.
  - rewrite (go_log_run env e _ w l (encodable_json_Marshal e d Hd) Hl).
    destruct (String.eqb (Host (options l)) "").
    + eexists. split; [reflexivity|]. left. exists []. do 2 eexists.
      reflexivity.
    + cbv zeta.
      destruct (DoTimeout env _ _ _) as [m|] eqn:Hnet.
      * eexists. split; [reflexivity|]. left. exists []. do 2 eexists.
        reflexivity.
      * destruct (Local (options l)); eexists; (split; [reflexivity|]).
        -- left. exists []. do 2 eexists. reflexivity.
        -- right. exists d. split; [reflexivity|].
           split; [reflexivity | exact Hnet].
  - rewrite (go_log_unencodable env e w l (proj2 (json_Marshal_None e) Hd) Hl).
    destruct (go_log_run_facts env (secondaryError l) _
                (printed (lineAt env w e) w) l (secondary_json_Marshal l) Hl)
      as (r & w2 & lines & Hrun & _ & _ & Hout & _).
    unfold bind. rewrite Hrun. eexists. split; [reflexivity|].
    left. exists [], (time_Now_Format env (length (stdout w))), lines.
    rewrite Hout. cbn [stdout printed]. rewrite <- app_assoc. reflexivity.
Qed.

End NeverLost.

(** ** The further properties at concrete inputs *)

Lemma remote_host_not_empty : Host (options remoteLogger) <> "".
Proof. intros H. discriminate H. Qed.

Lemma mirror_host_not_empty : Host (options (mkLogger mirrorOptions)) <> "".
Proof. intros H. discriminate H. Qed.

Lemma far_host_not_empty : Host (options (mkLogger farOptions)) <> "".
Proof. intros H. discriminate H. Qed.

Lemma Info_in_emitters (env : Env) :
  In (infoSeverity, Part000.Info env) (emitters env).
Proof. do 3 right. left. reflexivity. Qed.

Lemma Info_in_go_emitters (env : Env) :
  In (infoSeverity, LoggerGo.Info env) (go_emitters env).
Proof. do 3 right. left. reflexivity. Qed.

Lemma emitter_returns_within_frame_witness :
  In (infoSeverity, Part000.Info sampleEnv) (emitters sampleEnv)
  /\ logr remoteWorld = Some remoteLogger
  /\ exists w',
       Part000.Info sampleEnv ["job"] "done" VChan remoteWorld = Returned tt w'
       /\ logr w' = Some remoteLogger.
Proof.
  split; [apply Info_in_emitters|]. split; [reflexivity|].
  destruct (emitter_returns_within_frame sampleEnv infoSeverity
              (Part000.Info sampleEnv) ["job"] "done" VChan remoteWorld
              remoteLogger (Info_in_emitters sampleEnv) eq_refl)
    as (w' & lines & reqs & Hrun & Hl & _).
  exists w'. split; [exact Hrun | exact Hl].
Defined.

Lemma failed_delivery_with_Local_printed_once_witness :
  In (infoSeverity, Part000.Info sampleEnv) (emitters sampleEnv)
  /\ logr mirrorWorld = Some (mkLogger mirrorOptions)
  /\ Host mirrorOptions <> ""
  /\ Local mirrorOptions = true
  /\ encodeValue VNil = Some JNull
  /\ exists w',
       Part000.Info sampleEnv ["job"] "done" VNil mirrorWorld = Returned tt w'
       /\ length (stdout w') = 2%nat.
Proof.
  split; [apply Info_in_emitters|]. split; [reflexivity|].
  split; [exact mirror_host_not_empty|]. split; [reflexivity|].
  split; [reflexivity|].
  destruct (failed_delivery_with_Local_printed_once sampleEnv infoSeverity
              (Part000.Info sampleEnv) ["job"] "done" VNil JNull "timeout"
              mirrorWorld (mkLogger mirrorOptions) (Info_in_emitters sampleEnv)
              eq_refl mirror_host_not_empty eq_refl eq_refl eq_refl)
    as (Hrun & Hout).
  eexists. split; [exact Hrun|]. rewrite Hout. reflexivity.
Defined.

Lemma Fatal_encodable_printed_once_witness :
  logr remoteWorld = Some remoteLogger
  /\ encodeValue (VBool true) = Some (JBool true)
  /\ exists w' pre ts,
       Part000.Fatal sampleEnv ["f"] "die" (VBool true) remoteWorld = Exited 1 w'
       /\ stdout w' =
            (pre ++ [formatLine ts
                       (mkEntry criticalSeverity ["svc"; "f"] "die" (VBool true))])%list.
Proof.
  split; [reflexivity|]. split; [reflexivity|].
  destruct (Fatal_encodable_printed_once sampleEnv ["f"] "die" (VBool true)
              (JBool true) remoteWorld remoteLogger eq_refl eq_refl)
    as (w' & pre & ts & Hrun & Hout & _).
  exists w', pre, ts. split; [exact Hrun | exact Hout].
Defined.

Lemma unencodable_report_remote_only_witness :
  In (infoSeverity, Part000.Info sampleEnv) (emitters sampleEnv)
  /\ logr remoteWorldAfterOne = Some remoteLogger
  /\ Host (options remoteLogger) <> ""
  /\ Local (options remoteLogger) = false
  /\ encodeValue VChan = None
  /\ exists w',
       Part000.Info sampleEnv ["q"] "chan" VChan remoteWorldAfterOne =
         Returned tt w'
       /\ length (stdout w') = 1%nat.
Proof.
  split; [apply Info_in_emitters|]. split; [reflexivity|].
  split; [exact remote_host_not_empty|]. split; [reflexivity|].
  split; [reflexivity|].
  destruct (unencodable_report_remote_only sampleEnv infoSeverity
              (Part000.Info sampleEnv) ["q"] "chan" VChan remoteWorldAfterOne
              remoteLogger (Info_in_emitters sampleEnv) eq_refl
              remote_host_not_empty eq_refl eq_refl eq_refl)
    as (w' & Hrun & Hout & _).
  exists w'. split; [exact Hrun|]. rewrite Hout. reflexivity.
Defined.

Lemma Fatal_is_Critical_then_exit_witness :
  logr mirrorWorld = Some (mkLogger mirrorOptions)
  /\ Local mirrorOptions = true
  /\ exists w',
       Part000.Critical sampleEnv ["f"] "die" VNil mirrorWorld = Returned tt w'
       /\ Part000.Fatal sampleEnv ["f"] "die" VNil mirrorWorld = Exited 1 w'.
Proof.
  split; [reflexivity|]. split; [reflexivity|].
  exact (Fatal_is_Critical_then_exit sampleEnv ["f"] "die" VNil mirrorWorld
           (mkLogger mirrorOptions) eq_refl eq_refl).
Defined.

Lemma postLog_deadline_in_seconds_witness :
  logr mirrorWorld = Some (mkLogger mirrorOptions)
  /\ Host mirrorOptions <> ""
  /\ 1 <= Timeout mirrorOptions <= 9223372036
  /\ Part000.postLog sampleEnv JNull mirrorWorld =
       match DoTimeout sampleEnv 0 (newRequest mirrorOptions JNull) 30000000000 with
       | None => Returned None (posted (newRequest mirrorOptions JNull) mirrorWorld)
       | Some m =>
           Returned (Some m)
             (printed (lineAt sampleEnv mirrorWorld
                         (transportWarning (mkLogger mirrorOptions) m))
                      (posted (newRequest mirrorOptions JNull) mirrorWorld))
       end.
Proof.
  assert (Ht : 1 <= Timeout mirrorOptions <= 9223372036) by (cbn; lia).
  split; [reflexivity|]. split; [exact mirror_host_not_empty|].
  split; [exact Ht|].
  exact (proj2 (postLog_deadline_in_seconds sampleEnv JNull mirrorWorld
                  (mkLogger mirrorOptions) eq_refl mirror_host_not_empty Ht)).
Defined.

Lemma postLog_deadline_overflows_witness :
  logr farWorld = Some (mkLogger farOptions)
  /\ Host farOptions <> ""
  /\ 9223372037 <= Timeout farOptions <= 18446744073
  /\ Timeout farOptions * 1000000000 - 2 ^ 64 < 0.
Proof.
  assert (Ht : 9223372037 <= Timeout farOptions <= 18446744073) by (cbn; lia).
  split; [reflexivity|]. split; [exact far_host_not_empty|].
  split; [exact Ht|].
  exact (proj1 (postLog_deadline_overflows sampleEnv JNull farWorld
                  (mkLogger farOptions) eq_refl far_host_not_empty Ht)).
Defined.

Lemma quietEnv_neverFails : neverFails quietEnv.
Proof. intros n req d. reflexivity. Qed.

Lemma revisions_agree_without_failures_witness :
  neverFails quietEnv
  /\ Part000.Fatal quietEnv ["f"] "die" VFunc remoteWorld =
       LoggerGo.Fatal quietEnv ["f"] "die" VFunc remoteWorld.
Proof.
  split; [exact quietEnv_neverFails|].
  apply (proj1 (proj2 (revisions_agree_without_failures quietEnv
                         quietEnv_neverFails))).
Defined.

Lemma record_never_lost_witness :
  In (infoSeverity, Part000.Info sampleEnv) (emitters sampleEnv)
  /\ logr remoteWorld = Some remoteLogger
  /\ exists w',
       Part000.Info sampleEnv ["job"] "done" VNil remoteWorld = Returned tt w'.
Proof.
  split; [apply Info_in_emitters|]. split; [reflexivity|].
  destruct (record_never_lost sampleEnv infoSeverity (Part000.Info sampleEnv)
              ["job"] "done" VNil remoteWorld remoteLogger
              (Info_in_emitters sampleEnv) eq_refl)
    as (w' & Hrun & _).
  exists w'. exact Hrun.
Defined.

Lemma go_record_never_lost_witness :
  In (infoSeverity, LoggerGo.Info sampleEnv) (go_emitters sampleEnv)
  /\ logr remoteWorld = Some remoteLogger
  /\ exists w',
       LoggerGo.Info sampleEnv ["job"] "done" VNil remoteWorld = Returned tt w'.
Proof.
  split; [apply Info_in_go_emitters|]. split; [reflexivity|].
  destruct (go_record_never_lost sampleEnv infoSeverity (LoggerGo.Info sampleEnv)
              ["job"] "done" VNil remoteWorld remoteLogger
              (Info_in_go_emitters sampleEnv) eq_refl)
    as (w' & Hrun & _).
  exists w'. exact Hrun.
Defined.

(** * The two warnings, revision by revision *)

Section Warnings.
Variable env : Env.

(** C3. With an empty host both revisions keep everything local: [postLog]
    returns the host-not-set error without a round trip, and every record
    sent through an emitter is printed on standard output with nothing
    handed to the HTTP client.  The start-up warning belongs to part_000
    alone: there a first [Init] prints exactly one WARNING line, "Host is
    not set", while [Init] of src/logger.go prints nothing. *)
Theorem empty_host_local_only_by_revision (o : Options) (w0 w : World)
    (l : logger) :
  logr w0 = None ->
  Host o = "" ->
  logr w = Some l ->
  Host (options l) = "" ->
  let entry sev tags message data :=
    mkEntry sev (System (options l) :: tags) message data in
  let after sev tags message data :=
    (stdout w ++ lineAt env w (entry sev tags message data) ::
       match encodeValue data with
       | Some _ => []
       | None =>
           [lineAt env (printed (lineAt env w (entry sev tags message data)) w)
                   (secondaryError l)]
       end)%list in
  ((exists w1,
       Part000.Init env o w0 = Returned None w1
       /\ sent w1 = sent w0
       /\ stdout w1 = (stdout w0 ++ [lineAt env w0 (hostWarning o)])%list
       /\ Severity (hostWarning o) = warningSeverity
       /\ Message (hostWarning o) = hostNotSet)
   /\ (forall b, Part000.postLog env b w = Returned (errors_New hostNotSet) w)
   /\ (forall sev f tags message data,
          In (sev, f) (emitters env) ->
          exists w',
            f tags message data w = Returned tt w'
            /\ sent w' = sent w
            /\ stdout w' = after sev tags message data)
   /\ (forall tags message data,
          exists w' rest,
            Part000.Fatal env tags message data w = Exited 1 w'
            /\ sent w' = sent w
            /\ stdout w' =
                 (stdout w
                  ++ lineAt env w (entry criticalSeverity tags message data)
                  :: rest)%list))
  /\
  ((exists w1,
       LoggerGo.Init env o w0 = Returned None w1
       /\ sent w1 = sent w0
       /\ stdout w1 = stdout w0)
   /\ (forall b, LoggerGo.postLog env b w = Returned (errors_New hostNotSet) w)
   /\ (forall sev g tags message data,
          In (sev, g) (go_emitters env) ->
          exists w',
            g tags message data w = Returned tt w'
            /\ sent w' = sent w
            /\ stdout w' = after sev tags message data)
   /\ (forall tags message data,
          exists w' rest,
            LoggerGo.Fatal env tags message data w = Exited 1 w'
            /\ sent w' = sent w
            /\ stdout w' =
                 (stdout w
                  ++ lineAt env w (entry criticalSeverity tags message data)
                  :: rest)%list)).
Proof.
  intros H0 Ho Hl Hh entry after. split.
  - exact (empty_host_local_only env o w0 w l H0 Ho Hl Hh).
  - exact (go_empty_host_no_startup_warning env o w0 w l H0 Ho Hl Hh).
Qed.

(** C4. When the round trip fails and [Local] is false, both revisions
    print the record exactly once.  In part_000 one WARNING record tagged
    "logging" that reports the transport error is printed before it, and
    these two lines are all that is printed; in src/logger.go, whose
    [postLog] has no such warning, the record's line is the only one.
    [Fatal] prints the same lines before it exits. *)
Theorem failed_delivery_printed_once_by_revision (sev : severity)
    (f g : emitter) (tags : list string) (message : string) (data : Value)
    (d : JSON) (m : string) (w : World) (l : logger) :
  In (sev, f) (emitters env) ->
  In (sev, g) (go_emitters env) ->
  logr w = Some l ->
  Host (options l) <> "" ->
  Local (options l) = false ->
  encodeValue data = Some d ->
  let e := mkEntry sev (System (options l) :: tags) message data in
  let c := mkEntry criticalSeverity (System (options l) :: tags) message data in
  let t0 := time_Now_Format env (length (stdout w)) in
  let t1 := time_Now_Format env (S (length (stdout w))) in
  let failing x :=
    DoTimeout env (length (sent w)) (newRequest (options l) (entryJSON x d))
              (duration (Timeout (options l))) = Some m in
  (failing e ->
   (exists w',
       f tags message data w = Returned tt w'
       /\ Part000.log env e w = Returned (Some m) w'
       /\ sent w' = (sent w ++ [newRequest (options l) (entryJSON e d)])%list
       /\ stdout w' = (stdout w ++ [formatLine t0 (transportWarning l m);
                                    formatLine t1 e])%list)
   /\ (exists w',
          g tags message data w = Returned tt w'
          /\ LoggerGo.log env e w = Returned (Some m) w'
          /\ sent w' = (sent w ++ [newRequest (options l) (entryJSON e d)])%list
          /\ stdout w' = (stdout w ++ [formatLine t0 e])%list))
  /\
  (failing c ->
   (exists w',
       Part000.Fatal env tags message data w = Exited 1 w'
       /\ sent w' = (sent w ++ [newRequest (options l) (entryJSON c d)])%list
       /\ stdout w' = (stdout w ++ [formatLine t0 (transportWarning l m);
                                    formatLine t1 c])%list)
   /\ (exists w',
          LoggerGo.Fatal env tags message data w = Exited 1 w'
          /\ sent w' = (sent w ++ [newRequest (options l) (entryJSON c d)])%list
          /\ stdout w' = (stdout w ++ [formatLine t0 c])%list)).
Proof.
  intros Hf Hg Hl Hh Hloc Hd e c t0 t1 failing.
  pose proof (failed_delivery_printed_once env sev f tags message data d m w l
                Hf Hl Hh Hloc Hd) as [Hemit Hfatal].
  split; intros Hnet.
  - split; [exact (Hemit Hnet)|].
    exact (go_failed_delivery_no_warning env sev g tags message data d m w l
             Hg Hl Hh Hd Hnet).
  - split; [exact (Hfatal Hnet)|].
    rewrite (go_Fatal_run env tags message data w l Hl). cbv zeta. fold c.
    unfold bind at 1.
    rewrite (go_log_run env c _ w l (encodable_json_Marshal c d Hd) Hl).
    rewrite (eqb_empty_false _ Hh). cbv zeta. unfold failing in Hnet.
    rewrite Hnet. eexists. repeat split; reflexivity.
Qed.

End Warnings.

Lemma Error_in_emitters (env : Env) :
  In (errorSeverity, Part000.Error env) (emitters env).
Proof. do 2 right. left. reflexivity. Qed.

Lemma Error_in_go_emitters (env : Env) :
  In (errorSeverity, LoggerGo.Error env) (go_emitters env).
Proof. do 2 right. left. reflexivity. Qed.

Lemma empty_host_local_only_by_revision_witness :
  logr initialWorld = None
  /\ Host localOptions = ""
  /\ logr localWorld = Some (mkLogger localOptions)
  /\ Host (options (mkLogger localOptions)) = ""
  /\ (exists w1,
         Part000.Init sampleEnv localOptions initialWorld = Returned None w1
         /\ stdout w1 =
              ["2024-05-01 12:00:00 WARNING - [svc logging] - Host is not set"
               ++ newline])
  /\ (exists w1,
         LoggerGo.Init sampleEnv localOptions initialWorld = Returned None w1
         /\ stdout w1 = []).
Proof.
  split; [reflexivity|]. split; [reflexivity|]. split; [reflexivity|].
  split; [reflexivity|].
  destruct (empty_host_local_only_by_revision sampleEnv localOptions
              initialWorld localWorld (mkLogger localOptions)
              eq_refl eq_refl eq_refl eq_refl)
    as [[(w1 & Hrun & _ & Hout & _) _] [(w2 & Hrun2 & _ & Hout2) _]].
  split; [exists w1 | exists w2]; split; assumption.
Defined.

Lemma failed_delivery_printed_once_by_revision_witness :
  In (errorSeverity, Part000.Error sampleEnv) (emitters sampleEnv)
  /\ In (errorSeverity, LoggerGo.Error sampleEnv) (go_emitters sampleEnv)
  /\ logr remoteWorld = Some remoteLogger
  /\ Host (options remoteLogger) <> ""
  /\ Local (options remoteLogger) = false
  /\ encodeValue VNil = Some JNull
  /\ (exists w',
         Part000.Error sampleEnv ["db"] "lost" VNil remoteWorld = Returned tt w'
         /\ length (stdout w') = 2%nat)
  /\ (exists w',
         LoggerGo.Error sampleEnv ["db"] "lost" VNil remoteWorld = Returned tt w'
         /\ length (stdout w') = 1%nat).
Proof.
  assert (Hh : Host (options remoteLogger) <> "") by (intros H; discriminate H).
  split; [apply Error_in_emitters|]. split; [apply Error_in_go_emitters|].
  split; [reflexivity|]. split; [exact Hh|]. split; [reflexivity|].
  split; [reflexivity|].
  destruct (proj1 (failed_delivery_printed_once_by_revision sampleEnv
                     errorSeverity (Part000.Error sampleEnv)
                     (LoggerGo.Error sampleEnv) ["db"] "lost" VNil JNull
                     "timeout" remoteWorld remoteLogger
                     (Error_in_emitters sampleEnv)
                     (Error_in_go_emitters sampleEnv)
                     eq_refl Hh eq_refl eq_refl) eq_refl)
    as [(w1 & Hrun1 & _ & _ & Hout1) (w2 & Hrun2 & _ & _ & Hout2)].
  split; [exists w1 | exists w2]; (split; [assumption|]).
  - rewrite Hout1. reflexivity.
  - rewrite Hout2. reflexivity.
Defined.

(** [Init] of src/logger.go with an empty host, from process start: it
    returns nil and standard output is still empty, so no WARNING record
    was emitted. *)
Lemma logger_go_Init_emits_no_warning :
  Host localOptions = ""
  /\ LoggerGo.Init sampleEnv localOptions initialWorld = Returned None localWorld
  /\ stdout localWorld = []
  /\ sent localWorld = []
  /\ ~ (exists w1 line,
           LoggerGo.Init sampleEnv localOptions initialWorld = Returned None w1
           /\ In line (stdout w1)).
Proof.
  split; [reflexivity|]. split; [reflexivity|]. split; [reflexivity|].
  split; [reflexivity|].
  intros (w1 & line & Hrun & Hin).
  assert (Hw : w1 = localWorld) by (injection Hrun as <-; reflexivity).
  rewrite Hw in Hin. exact Hin.
Qed.

(** [Error] of src/logger.go when the round trip times out and [Local]
    is false: the call returns with one new line on standard output, the
    record's own, and no WARNING about the transport error. *)
Lemma logger_go_failed_delivery_prints_one_line :
  Host (options remoteLogger) <> ""
  /\ Local (options remoteLogger) = false
  /\ DoTimeout sampleEnv (length (sent remoteWorld))
       (newRequest (options remoteLogger)
          (entryJSON (mkEntry errorSeverity ["svc"; "db"] "lost" VNil) JNull))
       (duration (Timeout (options remoteLogger))) = Some "timeout"
  /\ exists w',
       LoggerGo.Error sampleEnv ["db"] "lost" VNil remoteWorld = Returned tt w'
       /\ stdout w' = ["2024-05-01 12:00:00 ERROR - [svc db] - lost" ++ newline].
Proof.
  split; [intros H; discriminate H|]. split; [reflexivity|].
  split; [reflexivity|].
  eexists. split; reflexivity.
Qed.
